(** * Quantum-Computing notebooks: embedding and checked properties

    The repository is a set of four Jupyter notebooks kept in three files:
    - [src/Quantum Optimization/04_grover_optimizer.ipynb],
    - [src/Quantum Finance/01_portfolio_optimization.ipynb], which holds two
      notebook documents one after the other (portfolio optimization, then
      excited states solvers),
    - [src/unnamed/part_000], the tour of QuTiP's [Qobj] class.

    A notebook is embedded as the list of its cells; [cell_NN] is the
    cell at position NN of the document, counted from 0, markdown cells
    included.  A code cell carries its recorded execution count, the
    abstract syntax of its Python source (comments are not part of it) and
    its recorded outputs; a markdown cell carries its first line.  The two
    functions the notebooks define, [print_result] and [filter_criterion],
    are embedded as Rocq functions further below. *)

From Stdlib Require Import List String Ascii ZArith QArith Qabs Bool Lia.
From Stdlib Require Import Permutation Sorted.
From Stdlib Require DecimalString DecimalNat.
Import ListNotations.
Open Scope string_scope.

Set Warnings "-register-all".

(** ** Python abstract syntax

    The fragment follows Python's [ast] module.  It holds every construct
    the notebooks use, and the control constructs they could have used
    (conditionals, loops, handlers, classes, assertions, suspension
    points). *)

Inductive binop : Type :=
  Add | Sub | Mult | Div | FloorDiv | Mod | Pow.

Inductive expr : Type :=
| EName (id : string)
| EInt (n : Z)
| EBool (b : bool)
| EFloat (literal : string)
| EImag (literal : string)
| EStr (literal : string)
| EAttr (value : expr) (attr : string)
| ESubscript (value index : expr)
| ECall (func : expr) (args : list expr) (keywords : list (string * expr))
| EBinOp (left : expr) (op : binop) (right : expr)
| ENeg (operand : expr)
| EAnd (left right : expr)
| EIfExp (test body orelse : expr)
| ELambda (params : list string) (body : expr)
| EList (elts : list expr)
| ETuple (elts : list expr)
| EListComp (elt target iter : expr)
| EDictComp (key value target iter : expr)
| EAwait (value : expr)
| EYield (value : expr).

(** Literals of type [str], [float] and [complex] are kept as written in
    the source, escapes undecoded.  [STry] keeps the guarded block and the
    handler block; [SMagic] is an IPython line magic. *)
Inductive stmt : Type :=
| SImport (module : string) (asname : option string)
| SImportFrom (module : string) (names : list string)
| SAssign (target value : expr)
| SExpr (value : expr)
| SFunctionDef (name : string) (params : list string) (body : list stmt)
| SClassDef (name : string) (body : list stmt)
| SReturn (value : expr)
| SFor (target iter : expr) (body : list stmt)
| SWhile (test : expr) (body : list stmt)
| SIf (test : expr) (body orelse : list stmt)
| STry (body handler : list stmt)
| SAssert (test : expr)
| SRaise (exc : expr)
| SMagic (line : string).

(** ** Notebook documents *)

(** A recorded output: the stream name or the list of MIME types, and the
    text, one string per line ([text/plain] for rich outputs).  Line ends
    are dropped and a tab is written [\t] as in the JSON file. *)
Inductive output : Type :=
| Stream (name : string) (text : list string)
| DisplayData (mimes : list string) (plain : list string)
| ExecuteResult (mimes : list string) (plain : list string).

Inductive cell : Type :=
| Markdown (first_line : string)
| Code (execution_count : option nat) (source : list stmt)
       (outputs : list output).

(** src/Quantum Optimization/04_grover_optimizer.ipynb *)
Module Grover_optimizer.

Definition cell_00 : cell :=
  Markdown "# Grover Optimizer".

Definition cell_01 : cell :=
  Markdown "## Introduction".

Definition cell_02 : cell :=
  Markdown "## Grover Adaptive Search".

Definition cell_03 : cell :=
  Markdown "## Find the Minimum of a QUBO Problem using GroverOptimizer".

Definition cell_04 : cell :=
  Code (Some 1%nat)
    [
      SImportFrom "qiskit_algorithms" ["NumPyMinimumEigensolver"];
      SImportFrom "qiskit.primitives" ["Sampler"];
      SImportFrom "qiskit_optimization.algorithms" ["GroverOptimizer"; "MinimumEigenOptimizer"];
      SImportFrom "qiskit_optimization.translators" ["from_docplex_mp"];
      SImportFrom "docplex.mp.model" ["Model"]
    ]
    [].

Definition cell_05 : cell :=
  Code (Some 2%nat)
    [
      SAssign (EName "model")
        (ECall (EName "Model") [] []);
      SAssign (EName "x0")
        (ECall (EAttr (EName "model") "binary_var") [] [("name", EStr "x0")]);
      SAssign (EName "x1")
        (ECall (EAttr (EName "model") "binary_var") [] [("name", EStr "x1")]);
      SAssign (EName "x2")
        (ECall (EAttr (EName "model") "binary_var") [] [("name", EStr "x2")]);
      SExpr (ECall (EAttr (EName "model") "minimize") [EBinOp (EBinOp (EBinOp (EBinOp (ENeg (EName "x0")) Add (EBinOp (EInt 2) Mult (EName "x1"))) Sub (EBinOp (EInt 3) Mult (EName "x2"))) Sub (EBinOp (EBinOp (EInt 2) Mult (EName "x0")) Mult (EName "x2"))) Sub (EBinOp (EBinOp (EInt 1) Mult (EName "x1")) Mult (EName "x2"))] []);
      SAssign (EName "qp")
        (ECall (EName "from_docplex_mp") [EName "model"] []);
      SExpr (ECall (EName "print") [ECall (EAttr (EName "qp") "prettyprint") [] []] [])
    ]
    [
      Stream "stdout" [
         "Problem name: docplex_model1";
         "";
         "Minimize";
         "  -2*x0*x2 - x1*x2 - x0 + 2*x1 - 3*x2";
         "";
         "Subject to";
         "  No constraints";
         "";
         "  Binary variables (3)";
         "    x0 x1 x2";
         "" ]
    ].

Definition cell_06 : cell :=
  Markdown "Next, we create a `GroverOptimizer` that uses 6 qubits to encode the value, and will terminate after there have been 10 iterations of GAS without progress (i.e. the value of $y$ does not change). The `solve()` function takes the `QuadraticProgram` we created earlier, and returns a results object that contains information about the run.".

Definition cell_07 : cell :=
  Code (Some 3%nat)
    [
      SAssign (EName "grover_optimizer")
        (ECall (EName "GroverOptimizer") [EInt 6] [("num_iterations", EInt 10); ("sampler", ECall (EName "Sampler") [] [])]);
      SAssign (EName "results")
        (ECall (EAttr (EName "grover_optimizer") "solve") [EName "qp"] []);
      SExpr (ECall (EName "print") [ECall (EAttr (EName "results") "prettyprint") [] []] [])
    ]
    [
      Stream "stdout" [
         "objective function value: -6.0";
         "variable values: x0=1.0, x1=0.0, x2=1.0";
         "status: SUCCESS" ]
    ].

Definition cell_08 : cell :=
  Markdown "This results in the optimal solution $x_0=1$, $x_1=0$, $x_2=1$ and the optimal objective value of $-6$ (most of the time, since it is a randomized algorithm).".

Definition cell_09 : cell :=
  Markdown "## Check that GroverOptimizer finds the correct value".

Definition cell_10 : cell :=
  Code (Some 4%nat)
    [
      SAssign (EName "exact_solver")
        (ECall (EName "MinimumEigenOptimizer") [ECall (EName "NumPyMinimumEigensolver") [] []] []);
      SAssign (EName "exact_result")
        (ECall (EAttr (EName "exact_solver") "solve") [EName "qp"] []);
      SExpr (ECall (EName "print") [ECall (EAttr (EName "exact_result") "prettyprint") [] []] [])
    ]
    [
      Stream "stdout" [
         "objective function value: -6.0";
         "variable values: x0=1.0, x1=0.0, x2=1.0";
         "status: SUCCESS" ]
    ].

Definition cell_11 : cell :=
  Code (Some 5%nat)
    [
      SImport "qiskit.tools.jupyter" None;
      SMagic "%qiskit_version_table";
      SMagic "%qiskit_copyright"
    ]
    [
      DisplayData ["text/html"; "text/plain"] [
         "<IPython.core.display.HTML object>" ];
      DisplayData ["text/html"; "text/plain"] [
         "<IPython.core.display.HTML object>" ]
    ].

Definition cell_12 : cell :=
  Code None
    []
    [].

Definition cells : list cell :=
  [cell_00; cell_01; cell_02; cell_03; cell_04; cell_05; cell_06; cell_07; cell_08; cell_09; cell_10; cell_11; cell_12].

End Grover_optimizer.

(** src/Quantum Finance/01_portfolio_optimization.ipynb, first document *)
Module Portfolio_optimization.

Definition cell_00 : cell :=
  Markdown "# Portfolio Optimization".

Definition cell_01 : cell :=
  Markdown "## Introduction".

Definition cell_02 : cell :=
  Code (Some 1%nat)
    [
      SImportFrom "qiskit.circuit.library" ["TwoLocal"];
      SImportFrom "qiskit.result" ["QuasiDistribution"];
      SImportFrom "qiskit_aer.primitives" ["Sampler"];
      SImportFrom "qiskit_algorithms" ["NumPyMinimumEigensolver"; "QAOA"; "SamplingVQE"];
      SImportFrom "qiskit_algorithms.optimizers" ["COBYLA"];
      SImportFrom "qiskit_finance.applications.optimization" ["PortfolioOptimization"];
      SImportFrom "qiskit_finance.data_providers" ["RandomDataProvider"];
      SImportFrom "qiskit_optimization.algorithms" ["MinimumEigenOptimizer"];
      SImport "numpy" (Some "np");
      SImport "matplotlib.pyplot" (Some "plt");
      SImport "datetime" None
    ]
    [].

Definition cell_03 : cell :=
  Markdown "## Define problem instance".

Definition cell_04 : cell :=
  Code (Some 2%nat)
    [
      SAssign (EName "num_assets")
        (EInt 4);
      SAssign (EName "seed")
        (EInt 123);
      SAssign (EName "stocks")
        (EListComp (EBinOp (EStr "TICKER%s") Mod (EName "i")) (EName "i") (ECall (EName "range") [EName "num_assets"] []));
      SAssign (EName "data")
        (ECall (EName "RandomDataProvider") [] [("tickers", EName "stocks"); ("start", ECall (EAttr (EName "datetime") "datetime") [EInt 2016; EInt 1; EInt 1] []); ("end", ECall (EAttr (EName "datetime") "datetime") [EInt 2016; EInt 1; EInt 30] []); ("seed", EName "seed")]);
      SExpr (ECall (EAttr (EName "data") "run") [] []);
      SAssign (EName "mu")
        (ECall (EAttr (EName "data") "get_period_return_mean_vector") [] []);
      SAssign (EName "sigma")
        (ECall (EAttr (EName "data") "get_period_return_covariance_matrix") [] [])
    ]
    [].

Definition cell_05 : cell :=
  Code (Some 3%nat)
    [
      SExpr (ECall (EAttr (EName "plt") "imshow") [EName "sigma"] [("interpolation", EStr "nearest")]);
      SExpr (ECall (EAttr (EName "plt") "show") [] [])
    ]
    [
      DisplayData ["image/png"; "text/plain"] [
         "<Figure size 432x288 with 1 Axes>" ]
    ].

Definition cell_06 : cell :=
  Code (Some 4%nat)
    [
      SAssign (EName "q")
        (EFloat "0.5");
      SAssign (EName "budget")
        (EBinOp (EName "num_assets") FloorDiv (EInt 2));
      SAssign (EName "penalty")
        (EName "num_assets");
      SAssign (EName "portfolio")
        (ECall (EName "PortfolioOptimization") [] [("expected_returns", EName "mu"); ("covariances", EName "sigma"); ("risk_factor", EName "q"); ("budget", EName "budget")]);
      SAssign (EName "qp")
        (ECall (EAttr (EName "portfolio") "to_quadratic_program") [] []);
      SExpr (EName "qp")
    ]
    [
      ExecuteResult ["text/plain"] [
         "<QuadraticProgram: minimize 0.001270694296030004*x_0^2 + 7.340221669347328e-05..., 4 variables, 1 constraints, 'Portfolio optimization'>" ]
    ].

Definition cell_07 : cell :=
  Markdown "We define some utility methods to print the results in a nice format.".

Definition cell_08 : cell :=
  Code (Some 5%nat)
    [
      SFunctionDef "print_result" ["result"]
        [
          SAssign (EName "selection")
            (EAttr (EName "result") "x");
          SAssign (EName "value")
            (EAttr (EName "result") "fval");
          SExpr (ECall (EName "print") [ECall (EAttr (EStr "Optimal: selection {}, value {:.4f}") "format") [EName "selection"; EName "value"] []] []);
          SAssign (EName "eigenstate")
            (EAttr (EAttr (EName "result") "min_eigen_solver_result") "eigenstate");
          SAssign (EName "probabilities")
            (EIfExp (ECall (EName "isinstance") [EName "eigenstate"; EName "QuasiDistribution"] []) (ECall (EAttr (EName "eigenstate") "binary_probabilities") [] []) (EDictComp (EName "k") (EBinOp (ECall (EAttr (EName "np") "abs") [EName "v"] []) Pow (EInt 2)) (ETuple [EName "k"; EName "v"]) (ECall (EAttr (ECall (EAttr (EName "eigenstate") "to_dict") [] []) "items") [] [])));
          SExpr (ECall (EName "print") [EStr "\n----------------- Full result ---------------------"] []);
          SExpr (ECall (EName "print") [EStr "selection\tvalue\t\tprobability"] []);
          SExpr (ECall (EName "print") [EStr "---------------------------------------------------"] []);
          SAssign (EName "probabilities")
            (ECall (EName "sorted") [ECall (EAttr (EName "probabilities") "items") [] []] [("key", ELambda ["x"] (ESubscript (EName "x") (EInt 1))); ("reverse", EBool true)]);
          SFor (ETuple [EName "k"; EName "v"]) (EName "probabilities")
            [
              SAssign (EName "x")
                (ECall (EAttr (EName "np") "array") [EListComp (ECall (EName "int") [EName "i"] []) (EName "i") (ECall (EName "list") [ECall (EName "reversed") [EName "k"] []] [])] []);
              SAssign (EName "value")
                (ECall (EAttr (EAttr (ECall (EAttr (EName "portfolio") "to_quadratic_program") [] []) "objective") "evaluate") [EName "x"] []);
              SExpr (ECall (EName "print") [EBinOp (EStr "%10s\t%.4f\t\t%.4f") Mod (ETuple [EName "x"; EName "value"; EName "v"])] [])
            ]
        ]
    ]
    [].

Definition cell_09 : cell :=
  Markdown "## NumPyMinimumEigensolver (as a classical reference)".

Definition cell_10 : cell :=
  Code (Some 6%nat)
    [
      SAssign (EName "exact_mes")
        (ECall (EName "NumPyMinimumEigensolver") [] []);
      SAssign (EName "exact_eigensolver")
        (ECall (EName "MinimumEigenOptimizer") [EName "exact_mes"] []);
      SAssign (EName "result")
        (ECall (EAttr (EName "exact_eigensolver") "solve") [EName "qp"] []);
      SExpr (ECall (EName "print_result") [EName "result"] [])
    ]
    [
      Stream "stdout" [
         "Optimal: selection [1. 0. 0. 1.], value -0.0149";
         "";
         "----------------- Full result ---------------------";
         "selection\tvalue\t\tprobability";
         "---------------------------------------------------";
         " [1 0 0 1]\t-0.0149\t\t1.0000" ]
    ].

Definition cell_11 : cell :=
  Markdown "## Solution using `SamplingVQE`".

Definition cell_12 : cell :=
  Code (Some 7%nat)
    [
      SImportFrom "qiskit_algorithms.utils" ["algorithm_globals"];
      SAssign (EAttr (EName "algorithm_globals") "random_seed")
        (EInt 1234);
      SAssign (EName "cobyla")
        (ECall (EName "COBYLA") [] []);
      SExpr (ECall (EAttr (EName "cobyla") "set_options") [] [("maxiter", EInt 500)]);
      SAssign (EName "ry")
        (ECall (EName "TwoLocal") [EName "num_assets"; EStr "ry"; EStr "cz"] [("reps", EInt 3); ("entanglement", EStr "full")]);
      SAssign (EName "svqe_mes")
        (ECall (EName "SamplingVQE") [] [("sampler", ECall (EName "Sampler") [] []); ("ansatz", EName "ry"); ("optimizer", EName "cobyla")]);
      SAssign (EName "svqe")
        (ECall (EName "MinimumEigenOptimizer") [EName "svqe_mes"] []);
      SAssign (EName "result")
        (ECall (EAttr (EName "svqe") "solve") [EName "qp"] []);
      SExpr (ECall (EName "print_result") [EName "result"] [])
    ]
    [
      Stream "stdout" [
         "Optimal: selection [1. 0. 0. 1.], value -0.0149";
         "";
         "----------------- Full result ---------------------";
         "selection\tvalue\t\tprobability";
         "---------------------------------------------------";
         " [0 1 1 0]\t0.0008\t\t0.8525";
         " [1 0 0 1]\t-0.0149\t\t0.0410";
         " [0 0 1 1]\t-0.0010\t\t0.0312";
         " [0 0 0 1]\t-0.0008\t\t0.0215";
         " [1 0 1 1]\t-0.0150\t\t0.0195";
         " [1 0 0 0]\t-0.0140\t\t0.0088";
         " [0 1 1 1]\t-0.0000\t\t0.0078";
         " [0 1 0 1]\t0.0002\t\t0.0078";
         " [0 1 0 0]\t0.0009\t\t0.0059";
         " [1 0 1 0]\t-0.0140\t\t0.0020";
         " [1 1 0 1]\t-0.0139\t\t0.0010";
         " [0 0 0 0]\t0.0000\t\t0.0010" ]
    ].

Definition cell_13 : cell :=
  Markdown "### Solution using `QAOA`".

Definition cell_14 : cell :=
  Code (Some 8%nat)
    [
      SAssign (EAttr (EName "algorithm_globals") "random_seed")
        (EInt 1234);
      SAssign (EName "cobyla")
        (ECall (EName "COBYLA") [] []);
      SExpr (ECall (EAttr (EName "cobyla") "set_options") [] [("maxiter", EInt 250)]);
      SAssign (EName "qaoa_mes")
        (ECall (EName "QAOA") [] [("sampler", ECall (EName "Sampler") [] []); ("optimizer", EName "cobyla"); ("reps", EInt 3)]);
      SAssign (EName "qaoa")
        (ECall (EName "MinimumEigenOptimizer") [EName "qaoa_mes"] []);
      SAssign (EName "result")
        (ECall (EAttr (EName "qaoa") "solve") [EName "qp"] []);
      SExpr (ECall (EName "print_result") [EName "result"] [])
    ]
    [
      Stream "stdout" [
         "Optimal: selection [1. 0. 0. 1.], value -0.0149";
         "";
         "----------------- Full result ---------------------";
         "selection\tvalue\t\tprobability";
         "---------------------------------------------------";
         " [1 0 0 1]\t-0.0149\t\t0.1797";
         " [1 0 1 0]\t-0.0140\t\t0.1729";
         " [1 1 0 0]\t-0.0130\t\t0.1641";
         " [0 0 1 1]\t-0.0010\t\t0.1592";
         " [0 1 1 0]\t0.0008\t\t0.1553";
         " [0 1 0 1]\t0.0002\t\t0.1445";
         " [0 1 0 0]\t0.0009\t\t0.0049";
         " [1 1 0 1]\t-0.0139\t\t0.0039";
         " [1 1 1 1]\t-0.0139\t\t0.0039";
         " [0 0 0 0]\t0.0000\t\t0.0029";
         " [1 0 0 0]\t-0.0140\t\t0.0029";
         " [0 0 1 0]\t-0.0001\t\t0.0020";
         " [0 1 1 1]\t-0.0000\t\t0.0010";
         " [1 1 1 0]\t-0.0130\t\t0.0010";
         " [0 0 0 1]\t-0.0008\t\t0.0010";
         " [1 0 1 1]\t-0.0150\t\t0.0010" ]
    ].

Definition cell_15 : cell :=
  Code (Some 9%nat)
    [
      SImport "qiskit.tools.jupyter" None;
      SMagic "%qiskit_version_table";
      SMagic "%qiskit_copyright"
    ]
    [
      DisplayData ["text/html"; "text/plain"] [
         "<IPython.core.display.HTML object>" ];
      DisplayData ["text/html"; "text/plain"] [
         "<IPython.core.display.HTML object>" ]
    ].

Definition cell_16 : cell :=
  Code None
    []
    [].

Definition cells : list cell :=
  [cell_00; cell_01; cell_02; cell_03; cell_04; cell_05; cell_06; cell_07; cell_08; cell_09; cell_10; cell_11; cell_12; cell_13; cell_14; cell_15; cell_16].

End Portfolio_optimization.

(** src/Quantum Finance/01_portfolio_optimization.ipynb, second document (Excited states solvers) *)
Module Excited_states_solvers.

Definition cell_00 : cell :=
  Markdown "# Excited states solvers".

Definition cell_01 : cell :=
  Markdown "## Introduction".

Definition cell_02 : cell :=
  Code (Some 1%nat)
    [
      SImportFrom "qiskit_nature.units" ["DistanceUnit"];
      SImportFrom "qiskit_nature.second_q.drivers" ["PySCFDriver"];
      SAssign (EName "driver")
        (ECall (EName "PySCFDriver") [] [("atom", EStr "H 0 0 0; H 0 0 0.735"); ("basis", EStr "sto3g"); ("charge", EInt 0); ("spin", EInt 0); ("unit", EAttr (EName "DistanceUnit") "ANGSTROM")]);
      SAssign (EName "es_problem")
        (ECall (EAttr (EName "driver") "run") [] [])
    ]
    [].

Definition cell_03 : cell :=
  Markdown "We will also be sticking to the Jordan-Wigner mapping. To learn more about the various mappers available in Qiskit Nature, check out the [Qubit Mappers tutorial](06_qubit_mappers.ipynb).".

Definition cell_04 : cell :=
  Code (Some 2%nat)
    [
      SImportFrom "qiskit_nature.second_q.mappers" ["JordanWignerMapper"];
      SAssign (EName "mapper")
        (ECall (EName "JordanWignerMapper") [] [])
    ]
    [].

Definition cell_05 : cell :=
  Markdown "## The Solver".

Definition cell_06 : cell :=
  Code (Some 3%nat)
    [
      SImportFrom "qiskit_algorithms" ["NumPyEigensolver"];
      SAssign (EName "numpy_solver")
        (ECall (EName "NumPyEigensolver") [] [("k", EInt 4); ("filter_criterion", ECall (EAttr (EName "es_problem") "get_default_filter_criterion") [] [])])
    ]
    [].

Definition cell_07 : cell :=
  Markdown "The excitation energies can also be accessed with the [qEOM algorithm](https://journals.aps.org/prresearch/abstract/10.1103/PhysRevResearch.2.043140). The EOM method finds the excitation energies (differences in energy between the ground state and all $n$th excited states) by solving the following pseudo-eigenvalue problem.".

Definition cell_08 : cell :=
  Code (Some 4%nat)
    [
      SImportFrom "qiskit_algorithms" ["VQE"];
      SImportFrom "qiskit_algorithms.optimizers" ["SLSQP"];
      SImportFrom "qiskit.primitives" ["Estimator"];
      SImportFrom "qiskit_nature.second_q.algorithms" ["GroundStateEigensolver"; "QEOM"; "EvaluationRule"];
      SImportFrom "qiskit_nature.second_q.circuit.library" ["HartreeFock"; "UCCSD"];
      SAssign (EName "ansatz")
        (ECall (EName "UCCSD") [EAttr (EName "es_problem") "num_spatial_orbitals"; EAttr (EName "es_problem") "num_particles"; EName "mapper"] [("initial_state", ECall (EName "HartreeFock") [EAttr (EName "es_problem") "num_spatial_orbitals"; EAttr (EName "es_problem") "num_particles"; EName "mapper"] [])]);
      SAssign (EName "estimator")
        (ECall (EName "Estimator") [] []);
      SAssign (EName "solver")
        (ECall (EName "VQE") [EName "estimator"; EName "ansatz"; ECall (EName "SLSQP") [] []] []);
      SAssign (EAttr (EName "solver") "initial_point")
        (EBinOp (EList [EFloat "0.0"]) Mult (EAttr (EName "ansatz") "num_parameters"));
      SAssign (EName "gse")
        (ECall (EName "GroundStateEigensolver") [EName "mapper"; EName "solver"] []);
      SAssign (EName "qeom_excited_states_solver")
        (ECall (EName "QEOM") [EName "gse"; EName "estimator"; EStr "sd"; EAttr (EName "EvaluationRule") "ALL"] [])
    ]
    [].

Definition cell_09 : cell :=
  Markdown "## The calculation and results".

Definition cell_10 : cell :=
  Code (Some 5%nat)
    [
      SImportFrom "qiskit_nature.second_q.algorithms" ["ExcitedStatesEigensolver"];
      SAssign (EName "numpy_excited_states_solver")
        (ECall (EName "ExcitedStatesEigensolver") [EName "mapper"; EName "numpy_solver"] []);
      SAssign (EName "numpy_results")
        (ECall (EAttr (EName "numpy_excited_states_solver") "solve") [EName "es_problem"] []);
      SAssign (EName "qeom_results")
        (ECall (EAttr (EName "qeom_excited_states_solver") "solve") [EName "es_problem"] []);
      SExpr (ECall (EName "print") [EName "numpy_results"] []);
      SExpr (ECall (EName "print") [EStr "\n\n"] []);
      SExpr (ECall (EName "print") [EName "qeom_results"] [])
    ]
    [
      Stream "stdout" [
         "=== GROUND STATE ENERGY ===";
         " ";
         "* Electronic ground state energy (Hartree): -1.857275030202";
         "  - computed part:      -1.857275030202";
         "~ Nuclear repulsion energy (Hartree): 0.719968994449";
         "> Total ground state energy (Hartree): -1.137306035753";
         " ";
         "=== EXCITED STATE ENERGIES ===";
         " ";
         "  1: ";
         "* Electronic excited state energy (Hartree): -0.882722150245";
         "> Total excited state energy (Hartree): -0.162753155796";
         "  2: ";
         "* Electronic excited state energy (Hartree): -0.224911252831";
         "> Total excited state energy (Hartree): 0.495057741618";
         " ";
         "=== MEASURED OBSERVABLES ===";
         " ";
         "  0:  # Particles: 2.000 S: 0.000 S^2: 0.000 M: 0.000";
         "  1:  # Particles: 2.000 S: 0.000 S^2: 0.000 M: 0.000";
         "  2:  # Particles: 2.000 S: 0.000 S^2: 0.000 M: 0.000";
         " ";
         "=== DIPOLE MOMENTS ===";
         " ";
         "~ Nuclear dipole moment (a.u.): [0.0  0.0  1.3889487]";
         " ";
         "  0: ";
         "  * Electronic dipole moment (a.u.): [0.0  0.0  1.388948701555]";
         "    - computed part:      [0.0  0.0  1.388948701555]";
         "  > Dipole moment (a.u.): [0.0  0.0  -0.000000001555]  Total: 0.000000001555";
         "                 (debye): [0.0  0.0  -0.000000003953]  Total: 0.000000003953";
         " ";
         "  1: ";
         "  * Electronic dipole moment (a.u.): [0.0  0.0  1.388948701555]";
         "    - computed part:      [0.0  0.0  1.388948701555]";
         "  > Dipole moment (a.u.): [0.0  0.0  -0.000000001555]  Total: 0.000000001555";
         "                 (debye): [0.0  0.0  -0.000000003953]  Total: 0.000000003953";
         " ";
         "  2: ";
         "  * Electronic dipole moment (a.u.): [0.0  0.0  1.388948701555]";
         "    - computed part:      [0.0  0.0  1.388948701555]";
         "  > Dipole moment (a.u.): [0.0  0.0  -0.000000001555]  Total: 0.000000001555";
         "                 (debye): [0.0  0.0  -0.000000003953]  Total: 0.000000003953";
         " ";
         "";
         "";
         "";
         "=== GROUND STATE ENERGY ===";
         " ";
         "* Electronic ground state energy (Hartree): -1.857275030145";
         "  - computed part:      -1.857275030145";
         "~ Nuclear repulsion energy (Hartree): 0.719968994449";
         "> Total ground state energy (Hartree): -1.137306035696";
         " ";
         "=== EXCITED STATE ENERGIES ===";
         " ";
         "  1: ";
         "* Electronic excited state energy (Hartree): -1.244586756145";
         "> Total excited state energy (Hartree): -0.524617761696";
         "  2: ";
         "* Electronic excited state energy (Hartree): -0.882724356546";
         "> Total excited state energy (Hartree): -0.162755362097";
         "  3: ";
         "* Electronic excited state energy (Hartree): -0.224913459141";
         "> Total excited state energy (Hartree): 0.495055535308";
         " ";
         "=== MEASURED OBSERVABLES ===";
         " ";
         "  0:  # Particles: 2.000 S: 0.000 S^2: 0.000 M: 0.000";
         "  1:  # Particles: 2.000 S: 1.000 S^2: 2.000 M: 0.000";
         "  2:  # Particles: 2.000 S: 0.000 S^2: -0.000 M: 0.000";
         "  3:  # Particles: 2.000 S: 0.000 S^2: 0.000 M: -0.000";
         " ";
         "=== DIPOLE MOMENTS ===";
         " ";
         "~ Nuclear dipole moment (a.u.): [0.0  0.0  1.3889487]";
         " ";
         "  0: ";
         "  * Electronic dipole moment (a.u.): [0.0  0.0  1.388948961657]";
         "    - computed part:      [0.0  0.0  1.388948961657]";
         "  > Dipole moment (a.u.): [0.0  0.0  -0.000000261657]  Total: 0.000000261657";
         "                 (debye): [0.0  0.0  -0.000000665065]  Total: 0.000000665065";
         " ";
         "  1: ";
         "  * Electronic dipole moment (a.u.): [0.0  0.0  1.388948701647]";
         "    - computed part:      [0.0  0.0  1.388948701647]";
         "  > Dipole moment (a.u.): [0.0  0.0  -0.000000001647]  Total: 0.000000001647";
         "                 (debye): [0.0  0.0  -0.000000004186]  Total: 0.000000004186";
         " ";
         "  2: ";
         "  * Electronic dipole moment (a.u.): [0.0  0.0  1.388949035771]";
         "    - computed part:      [0.0  0.0  1.388949035771]";
         "  > Dipole moment (a.u.): [0.0  0.0  -0.000000335771]  Total: 0.000000335771";
         "                 (debye): [0.0  0.0  -0.000000853445]  Total: 0.000000853445";
         " ";
         "  3: ";
         "  * Electronic dipole moment (a.u.): [0.0  0.0  1.388948738594]";
         "    - computed part:      [0.0  0.0  1.388948738594]";
         "  > Dipole moment (a.u.): [0.0  0.0  -0.000000038594]  Total: 0.000000038594";
         "                 (debye): [0.0  0.0  -0.000000098097]  Total: 0.000000098097";
         " " ]
    ].

Definition cell_11 : cell :=
  Markdown "One can see from these results that one state is missing from the NumPy results. The reason for this is because the spin is also used as a filter and only singlet states are shown. ".

Definition cell_12 : cell :=
  Code (Some 6%nat)
    [
      SImport "numpy" (Some "np");
      SFunctionDef "filter_criterion" ["eigenstate"; "eigenvalue"; "aux_values"]
        [
          SReturn (EAnd (ECall (EAttr (EName "np") "isclose") [ESubscript (ESubscript (EName "aux_values") (EStr "ParticleNumber")) (EInt 0); EFloat "2.0"] []) (ECall (EAttr (EName "np") "isclose") [ESubscript (ESubscript (EName "aux_values") (EStr "Magnetization")) (EInt 0); EFloat "0.0"] []))
        ];
      SAssign (EName "new_numpy_solver")
        (ECall (EName "NumPyEigensolver") [] [("k", EInt 4); ("filter_criterion", EName "filter_criterion")]);
      SAssign (EName "new_numpy_excited_states_solver")
        (ECall (EName "ExcitedStatesEigensolver") [EName "mapper"; EName "new_numpy_solver"] []);
      SAssign (EName "new_numpy_results")
        (ECall (EAttr (EName "new_numpy_excited_states_solver") "solve") [EName "es_problem"] []);
      SExpr (ECall (EName "print") [EName "new_numpy_results"] [])
    ]
    [
      Stream "stdout" [
         "=== GROUND STATE ENERGY ===";
         " ";
         "* Electronic ground state energy (Hartree): -1.857275030202";
         "  - computed part:      -1.857275030202";
         "~ Nuclear repulsion energy (Hartree): 0.719968994449";
         "> Total ground state energy (Hartree): -1.137306035753";
         " ";
         "=== EXCITED STATE ENERGIES ===";
         " ";
         "  1: ";
         "* Electronic excited state energy (Hartree): -1.244584549813";
         "> Total excited state energy (Hartree): -0.524615555364";
         "  2: ";
         "* Electronic excited state energy (Hartree): -0.882722150245";
         "> Total excited state energy (Hartree): -0.162753155796";
         "  3: ";
         "* Electronic excited state energy (Hartree): -0.224911252831";
         "> Total excited state energy (Hartree): 0.495057741618";
         " ";
         "=== MEASURED OBSERVABLES ===";
         " ";
         "  0:  # Particles: 2.000 S: 0.000 S^2: 0.000 M: 0.000";
         "  1:  # Particles: 2.000 S: 1.000 S^2: 2.000 M: 0.000";
         "  2:  # Particles: 2.000 S: 0.000 S^2: 0.000 M: 0.000";
         "  3:  # Particles: 2.000 S: 0.000 S^2: 0.000 M: 0.000";
         " ";
         "=== DIPOLE MOMENTS ===";
         " ";
         "~ Nuclear dipole moment (a.u.): [0.0  0.0  1.3889487]";
         " ";
         "  0: ";
         "  * Electronic dipole moment (a.u.): [0.0  0.0  1.388948701555]";
         "    - computed part:      [0.0  0.0  1.388948701555]";
         "  > Dipole moment (a.u.): [0.0  0.0  -0.000000001555]  Total: 0.000000001555";
         "                 (debye): [0.0  0.0  -0.000000003953]  Total: 0.000000003953";
         " ";
         "  1: ";
         "  * Electronic dipole moment (a.u.): [0.0  0.0  1.388948701555]";
         "    - computed part:      [0.0  0.0  1.388948701555]";
         "  > Dipole moment (a.u.): [0.0  0.0  -0.000000001555]  Total: 0.000000001555";
         "                 (debye): [0.0  0.0  -0.000000003953]  Total: 0.000000003953";
         " ";
         "  2: ";
         "  * Electronic dipole moment (a.u.): [0.0  0.0  1.388948701555]";
         "    - computed part:      [0.0  0.0  1.388948701555]";
         "  > Dipole moment (a.u.): [0.0  0.0  -0.000000001555]  Total: 0.000000001555";
         "                 (debye): [0.0  0.0  -0.000000003953]  Total: 0.000000003953";
         " ";
         "  3: ";
         "  * Electronic dipole moment (a.u.): [0.0  0.0  1.388948701555]";
         "    - computed part:      [0.0  0.0  1.388948701555]";
         "  > Dipole moment (a.u.): [0.0  0.0  -0.000000001555]  Total: 0.000000001555";
         "                 (debye): [0.0  0.0  -0.000000003953]  Total: 0.000000003953";
         " " ]
    ].

Definition cell_13 : cell :=
  Code (Some 7%nat)
    [
      SImport "qiskit.tools.jupyter" None;
      SMagic "%qiskit_version_table";
      SMagic "%qiskit_copyright"
    ]
    [
      DisplayData ["text/html"; "text/plain"] [
         "<IPython.core.display.HTML object>" ];
      DisplayData ["text/html"; "text/plain"] [
         "<IPython.core.display.HTML object>" ]
    ].

Definition cells : list cell :=
  [cell_00; cell_01; cell_02; cell_03; cell_04; cell_05; cell_06; cell_07; cell_08; cell_09; cell_10; cell_11; cell_12; cell_13].

End Excited_states_solvers.

(** src/unnamed/part_000 *)
Module Quantum_object_class.

Definition cell_00 : cell :=
  Code (Some 2%nat)
    [
      SImportFrom "qutip" ["*"]
    ]
    [].

Definition cell_01 : cell :=
  Code (Some 3%nat)
    [
      SImport "numpy" (Some "np");
      SImport "matplotlib.pyplot" (Some "plt")
    ]
    [].

Definition cell_02 : cell :=
  Markdown "# The quantum object class".

Definition cell_03 : cell :=
  Code (Some 4%nat)
    [
      SExpr (ECall (EName "print") [ECall (EName "Qobj") [] []] [])
    ]
    [
      Stream "stdout" [
         "Quantum object: dims = [[1], [1]], shape = (1, 1), type = bra";
         "Qobj data =";
         "[[0.]]" ]
    ].

Definition cell_04 : cell :=
  Code (Some 5%nat)
    [
      SExpr (ECall (EName "print") [ECall (EName "Qobj") [EList [EList [EInt 1]; EList [EInt 2]; EList [EInt 3]; EList [EInt 4]; EList [EInt 5]]] []] [])
    ]
    [
      Stream "stdout" [
         "Quantum object: dims = [[5], [1]], shape = (5, 1), type = ket";
         "Qobj data =";
         "[[1.]";
         " [2.]";
         " [3.]";
         " [4.]";
         " [5.]]" ]
    ].

Definition cell_05 : cell :=
  Code (Some 6%nat)
    [
      SAssign (EName "x")
        (ECall (EAttr (EName "np") "array") [EList [EList [EInt 1; EInt 2; EInt 3; EInt 4; EInt 5]]] []);
      SExpr (ECall (EName "print") [ECall (EName "Qobj") [EName "x"] []] [])
    ]
    [
      Stream "stdout" [
         "Quantum object: dims = [[1], [5]], shape = (1, 5), type = bra";
         "Qobj data =";
         "[[1. 2. 3. 4. 5.]]" ]
    ].

Definition cell_06 : cell :=
  Code (Some 7%nat)
    [
      SAssign (EName "r")
        (ECall (EAttr (EAttr (EName "np") "random") "rand") [EInt 8; EInt 8] []);
      SExpr (ECall (EName "print") [ECall (EName "Qobj") [EName "r"] []] [])
    ]
    [
      Stream "stdout" [
         "Quantum object: dims = [[8], [8]], shape = (8, 8), type = oper, isherm = False";
         "Qobj data =";
         "[[0.33060943 0.29314151 0.82170027 0.42846551 0.89378736 0.90783233";
         "  0.86797898 0.7865101 ]";
         " [0.40266153 0.44844116 0.88152248 0.07202133 0.69032239 0.1317123";
         "  0.00657011 0.29070351]";
         " [0.15203079 0.29815243 0.48924943 0.3247457  0.7385379  0.38105489";
         "  0.18853758 0.62568671]";
         " [0.13074871 0.13614371 0.59514342 0.73943296 0.60814968 0.29698553";
         "  0.6364438  0.97327015]";
         " [0.20627127 0.71100769 0.77748009 0.39616791 0.9968155  0.49075439";
         "  0.39633722 0.59960551]";
         " [0.68566915 0.16458442 0.47068571 0.12044367 0.5080246  0.72525153";
         "  0.34255587 0.41283155]";
         " [0.72821582 0.97998897 0.07800379 0.91177562 0.96193116 0.89357617";
         "  0.0036448  0.15245709]";
         " [0.24738966 0.64213157 0.71891002 0.62471028 0.10473884 0.93714279";
         "  0.07291763 0.9389534 ]]" ]
    ].

Definition cell_07 : cell :=
  Markdown "# States and operators".

Definition cell_08 : cell :=
  Code (Some 10%nat)
    [
      SExpr (ECall (EName "basis") [EInt 7; EInt 5] [])
    ]
    [
      ExecuteResult ["text/latex"; "text/plain"] [
         "Quantum object: dims = [[7], [1]], shape = (7, 1), type = ket";
         "Qobj data =";
         "[[0.]";
         " [0.]";
         " [0.]";
         " [0.]";
         " [0.]";
         " [1.]";
         " [0.]]" ]
    ].

Definition cell_09 : cell :=
  Code (Some 11%nat)
    [
      SExpr (ECall (EName "coherent") [EInt 10; EBinOp (EFloat "0.7") Sub (EImag "0.5j")] [])
    ]
    [
      ExecuteResult ["text/latex"; "text/plain"] [
         "Quantum object: dims = [[10], [1]], shape = (10, 1), type = ket";
         "Qobj data =";
         "[[ 6.90734331e-01+0.00000000e+00j]";
         " [ 4.83514031e-01-3.45367165e-01j]";
         " [ 1.17221503e-01-3.41896050e-01j]";
         " [-5.13223820e-02-1.72014577e-01j]";
         " [-6.09664760e-02-4.73745049e-02j]";
         " [-2.96788082e-02-1.19804826e-03j]";
         " [-8.72585340e-03+5.71570993e-03j]";
         " [-1.22879820e-03+3.16209470e-03j]";
         " [ 2.53718214e-04+9.95272979e-04j]";
         " [ 2.41463105e-04+2.03769850e-04j]]" ]
    ].

Definition cell_10 : cell :=
  Markdown "# Qobj attributes".

Definition cell_11 : cell :=
  Code (Some 12%nat)
    [
      SExpr (ECall (EName "destroy") [EInt 4] [])
    ]
    [
      ExecuteResult ["text/latex"; "text/plain"] [
         "Quantum object: dims = [[4], [4]], shape = (4, 4), type = oper, isherm = False";
         "Qobj data =";
         "[[0.         1.         0.         0.        ]";
         " [0.         0.         1.41421356 0.        ]";
         " [0.         0.         0.         1.73205081]";
         " [0.         0.         0.         0.        ]]" ]
    ].

Definition cell_12 : cell :=
  Code (Some 13%nat)
    [
      SExpr (ECall (EName "sigmaz") [] [])
    ]
    [
      ExecuteResult ["text/latex"; "text/plain"] [
         "Quantum object: dims = [[2], [2]], shape = (2, 2), type = oper, isherm = True";
         "Qobj data =";
         "[[ 1.  0.]";
         " [ 0. -1.]]" ]
    ].

Definition cell_13 : cell :=
  Code (Some 14%nat)
    [
      SExpr (ECall (EName "jmat") [EBinOp (EInt 5) Div (EFloat "2.0"); EStr "+"] [])
    ]
    [
      ExecuteResult ["text/latex"; "text/plain"] [
         "Quantum object: dims = [[6], [6]], shape = (6, 6), type = oper, isherm = False";
         "Qobj data =";
         "[[0.         2.23606798 0.         0.         0.         0.        ]";
         " [0.         0.         2.82842712 0.         0.         0.        ]";
         " [0.         0.         0.         3.         0.         0.        ]";
         " [0.         0.         0.         0.         2.82842712 0.        ]";
         " [0.         0.         0.         0.         0.         2.23606798]";
         " [0.         0.         0.         0.         0.         0.        ]]" ]
    ].

Definition cell_14 : cell :=
  Markdown "# Qobj Math".

Definition cell_15 : cell :=
  Code (Some 17%nat)
    [
      SAssign (EName "q")
        (ECall (EName "destroy") [EInt 4] []);
      SExpr (EAttr (EName "q") "dims")
    ]
    [
      ExecuteResult ["text/plain"] [
         "[[4], [4]]" ]
    ].

Definition cell_16 : cell :=
  Code (Some 18%nat)
    [
      SExpr (EAttr (EName "q") "shape")
    ]
    [
      ExecuteResult ["text/plain"] [
         "(4, 4)" ]
    ].

Definition cell_17 : cell :=
  Code (Some 19%nat)
    [
      SExpr (EAttr (EName "q") "type")
    ]
    [
      ExecuteResult ["text/plain"] [
         "'oper'" ]
    ].

Definition cell_18 : cell :=
  Code (Some 20%nat)
    [
      SExpr (EAttr (EName "q") "isherm")
    ]
    [
      ExecuteResult ["text/plain"] [
         "False" ]
    ].

Definition cell_19 : cell :=
  Code (Some 21%nat)
    [
      SExpr (EAttr (EName "q") "data")
    ]
    [
      ExecuteResult ["text/plain"] [
         "<4x4 sparse matrix of type '<class 'numpy.complex128'>'";
         "\twith 3 stored elements in Compressed Sparse Row format>" ]
    ].

Definition cell_20 : cell :=
  Code (Some 23%nat)
    [
      SAssign (EName "q")
        (ECall (EName "destroy") [EInt 4] []);
      SAssign (EName "x")
        (ECall (EName "sigmax") [] []);
      SExpr (EBinOp (EName "q") Add (EInt 5))
    ]
    [
      ExecuteResult ["text/latex"; "text/plain"] [
         "Quantum object: dims = [[4], [4]], shape = (4, 4), type = oper, isherm = False";
         "Qobj data =";
         "[[5.         1.         0.         0.        ]";
         " [0.         5.         1.41421356 0.        ]";
         " [0.         0.         5.         1.73205081]";
         " [0.         0.         0.         5.        ]]" ]
    ].

Definition cell_21 : cell :=
  Code (Some 24%nat)
    [
      SExpr (EBinOp (EName "x") Mult (EName "x"))
    ]
    [
      ExecuteResult ["text/latex"; "text/plain"] [
         "Quantum object: dims = [[2], [2]], shape = (2, 2), type = oper, isherm = True";
         "Qobj data =";
         "[[1. 0.]";
         " [0. 1.]]" ]
    ].

Definition cell_22 : cell :=
  Code (Some 25%nat)
    [
      SExpr (EBinOp (EName "q") Pow (EInt 3))
    ]
    [
      ExecuteResult ["text/latex"; "text/plain"] [
         "Quantum object: dims = [[4], [4]], shape = (4, 4), type = oper, isherm = False";
         "Qobj data =";
         "[[0.         0.         0.         2.44948974]";
         " [0.         0.         0.         0.        ]";
         " [0.         0.         0.         0.        ]";
         " [0.         0.         0.         0.        ]]" ]
    ].

Definition cell_23 : cell :=
  Code (Some 26%nat)
    [
      SExpr (EBinOp (EName "x") Div (ECall (EAttr (EName "np") "sqrt") [EInt 2] []))
    ]
    [
      ExecuteResult ["text/latex"; "text/plain"] [
         "Quantum object: dims = [[2], [2]], shape = (2, 2), type = oper, isherm = True";
         "Qobj data =";
         "[[0.         0.70710678]";
         " [0.70710678 0.        ]]" ]
    ].

Definition cell_24 : cell :=
  Markdown "# Functions operating on Qobj class".

Definition cell_25 : cell :=
  Code (Some 28%nat)
    [
      SExpr (ECall (EName "basis") [EInt 5; EInt 3] [])
    ]
    [
      ExecuteResult ["text/latex"; "text/plain"] [
         "Quantum object: dims = [[5], [1]], shape = (5, 1), type = ket";
         "Qobj data =";
         "[[0.]";
         " [0.]";
         " [0.]";
         " [1.]";
         " [0.]]" ]
    ].

Definition cell_26 : cell :=
  Code (Some 29%nat)
    [
      SExpr (ECall (EAttr (ECall (EName "basis") [EInt 5; EInt 3] []) "dag") [] [])
    ]
    [
      ExecuteResult ["text/latex"; "text/plain"] [
         "Quantum object: dims = [[1], [5]], shape = (1, 5), type = bra";
         "Qobj data =";
         "[[0. 0. 0. 1. 0.]]" ]
    ].

Definition cell_27 : cell :=
  Code (Some 30%nat)
    [
      SExpr (ECall (EName "coherent_dm") [EInt 5; EInt 1] [])
    ]
    [
      ExecuteResult ["text/latex"; "text/plain"] [
         "Quantum object: dims = [[5], [5]], shape = (5, 5), type = oper, isherm = True";
         "Qobj data =";
         "[[0.36791117 0.36774407 0.26105441 0.14620658 0.08826704]";
         " [0.36774407 0.36757705 0.26093584 0.14614018 0.08822695]";
         " [0.26105441 0.26093584 0.18523331 0.10374209 0.06263061]";
         " [0.14620658 0.14614018 0.10374209 0.05810197 0.035077  ]";
         " [0.08826704 0.08822695 0.06263061 0.035077   0.0211765 ]]" ]
    ].

Definition cell_28 : cell :=
  Code (Some 31%nat)
    [
      SExpr (ECall (EAttr (ECall (EName "coherent_dm") [EInt 5; EInt 1] []) "diag") [] [])
    ]
    [
      ExecuteResult ["text/plain"] [
         "array([0.36791117, 0.36757705, 0.18523331, 0.05810197, 0.0211765 ])" ]
    ].

Definition cell_29 : cell :=
  Code (Some 32%nat)
    [
      SExpr (ECall (EAttr (ECall (EName "coherent_dm") [EInt 5; EInt 1] []) "diag") [] [])
    ]
    [
      ExecuteResult ["text/plain"] [
         "array([0.36791117, 0.36757705, 0.18523331, 0.05810197, 0.0211765 ])" ]
    ].

Definition cell_30 : cell :=
  Code (Some 33%nat)
    [
      SExpr (ECall (EAttr (ECall (EName "coherent_dm") [EInt 5; EInt 1] []) "norm") [] [])
    ]
    [
      ExecuteResult ["text/plain"] [
         "1.000000021054981" ]
    ].

Definition cell_31 : cell :=
  Code (Some 34%nat)
    [
      SExpr (ECall (EAttr (ECall (EName "coherent_dm") [EInt 5; EInt 1] []) "full") [] [])
    ]
    [
      ExecuteResult ["text/plain"] [
         "array([[0.36791117+0.j, 0.36774407+0.j, 0.26105441+0.j, 0.14620658+0.j,";
         "        0.08826704+0.j],";
         "       [0.36774407+0.j, 0.36757705+0.j, 0.26093584+0.j, 0.14614018+0.j,";
         "        0.08822695+0.j],";
         "       [0.26105441+0.j, 0.26093584+0.j, 0.18523331+0.j, 0.10374209+0.j,";
         "        0.06263061+0.j],";
         "       [0.14620658+0.j, 0.14614018+0.j, 0.10374209+0.j, 0.05810197+0.j,";
         "        0.035077  +0.j],";
         "       [0.08826704+0.j, 0.08822695+0.j, 0.06263061+0.j, 0.035077  +0.j,";
         "        0.0211765 +0.j]])" ]
    ].

Definition cell_32 : cell :=
  Code (Some 35%nat)
    [
      SExpr (ECall (EAttr (ECall (EName "coherent_dm") [EInt 5; EInt 1] []) "full") [] [])
    ]
    [
      ExecuteResult ["text/plain"] [
         "array([[0.36791117+0.j, 0.36774407+0.j, 0.26105441+0.j, 0.14620658+0.j,";
         "        0.08826704+0.j],";
         "       [0.36774407+0.j, 0.36757705+0.j, 0.26093584+0.j, 0.14614018+0.j,";
         "        0.08822695+0.j],";
         "       [0.26105441+0.j, 0.26093584+0.j, 0.18523331+0.j, 0.10374209+0.j,";
         "        0.06263061+0.j],";
         "       [0.14620658+0.j, 0.14614018+0.j, 0.10374209+0.j, 0.05810197+0.j,";
         "        0.035077  +0.j],";
         "       [0.08826704+0.j, 0.08822695+0.j, 0.06263061+0.j, 0.035077  +0.j,";
         "        0.0211765 +0.j]])" ]
    ].

Definition cell_33 : cell :=
  Code (Some 36%nat)
    [
      SExpr (ECall (EAttr (ECall (EName "coherent_dm") [EInt 5; EInt 1] []) "tr") [] [])
    ]
    [
      ExecuteResult ["text/plain"] [
         "0.9999999999999999" ]
    ].

Definition cell_34 : cell :=
  Code (Some 37%nat)
    [
      SExpr (ECall (EAttr (EBinOp (ECall (EName "basis") [EInt 4; EInt 2] []) Add (ECall (EName "basis") [EInt 4; EInt 1] [])) "unit") [] [])
    ]
    [
      ExecuteResult ["text/latex"; "text/plain"] [
         "Quantum object: dims = [[4], [1]], shape = (4, 1), type = ket";
         "Qobj data =";
         "[[0.        ]";
         " [0.70710678]";
         " [0.70710678]";
         " [0.        ]]" ]
    ].

Definition cell_35 : cell :=
  Code None
    []
    [].

Definition cells : list cell :=
  [cell_00; cell_01; cell_02; cell_03; cell_04; cell_05; cell_06; cell_07; cell_08; cell_09; cell_10; cell_11; cell_12; cell_13; cell_14; cell_15; cell_16; cell_17; cell_18; cell_19; cell_20; cell_21; cell_22; cell_23; cell_24; cell_25; cell_26; cell_27; cell_28; cell_29; cell_30; cell_31; cell_32; cell_33; cell_34; cell_35].

End Quantum_object_class.

(** ** The repository *)

Record notebook : Type := {
  nb_file : string;
  nb_cells : list cell
}.

Definition grover_optimizer : notebook :=
  {| nb_file := "Quantum Optimization/04_grover_optimizer.ipynb";
     nb_cells := Grover_optimizer.cells |}.

Definition portfolio_optimization : notebook :=
  {| nb_file := "Quantum Finance/01_portfolio_optimization.ipynb";
     nb_cells := Portfolio_optimization.cells |}.

Definition excited_states_solvers : notebook :=
  {| nb_file := "Quantum Finance/01_portfolio_optimization.ipynb";
     nb_cells := Excited_states_solvers.cells |}.

Definition quantum_object_class : notebook :=
  {| nb_file := "unnamed/part_000";
     nb_cells := Quantum_object_class.cells |}.

Definition notebooks : list notebook :=
  [grover_optimizer; portfolio_optimization; excited_states_solvers;
   quantum_object_class].

(** ** Traversals of the syntax *)

(** An expression and every expression below it, in source order. *)
Fixpoint subexprs (e : expr) : list expr :=
  e ::
  match e with
  | EName _ | EInt _ | EBool _ | EFloat _ | EImag _ | EStr _ => []
  | EAttr v _ => subexprs v
  | ESubscript v i => subexprs v ++ subexprs i
  | ECall f args kws =>
      subexprs f ++ flat_map subexprs args
      ++ flat_map (fun kw => subexprs (snd kw)) kws
  | EBinOp l _ r => subexprs l ++ subexprs r
  | ENeg v => subexprs v
  | EAnd l r => subexprs l ++ subexprs r
  | EIfExp t b o => subexprs t ++ subexprs b ++ subexprs o
  | ELambda _ b => subexprs b
  | EList es | ETuple es => flat_map subexprs es
  | EListComp elt t it => subexprs elt ++ subexprs t ++ subexprs it
  | EDictComp k v t it =>
      subexprs k ++ subexprs v ++ subexprs t ++ subexprs it
  | EAwait v | EYield v => subexprs v
  end.

(** A statement and every statement nested in it. *)
Fixpoint substmts (s : stmt) : list stmt :=
  s ::
  match s with
  | SFunctionDef _ _ b | SClassDef _ b | SFor _ _ b | SWhile _ b =>
      flat_map substmts b
  | SIf _ b o | STry b o => flat_map substmts b ++ flat_map substmts o
  | _ => []
  end.

(** The statements directly inside a statement. *)
Definition children (s : stmt) : list stmt :=
  match s with
  | SFunctionDef _ _ b | SClassDef _ b | SFor _ _ b | SWhile _ b => b
  | SIf _ b o | STry b o => (b ++ o)%list
  | _ => []
  end.

(** The expressions a statement holds itself (not those of nested
    statements). *)
Definition head_exprs (s : stmt) : list expr :=
  match s with
  | SAssign t v => [t; v]
  | SExpr v | SReturn v | SAssert v | SRaise v => [v]
  | SFor t it _ => [t; it]
  | SWhile t _ | SIf t _ _ => [t]
  | _ => []
  end.

Definition all_stmts (src : list stmt) : list stmt :=
  flat_map substmts src.

Definition all_exprs (src : list stmt) : list expr :=
  flat_map subexprs (flat_map head_exprs (all_stmts src)).

(** The code cells of a notebook with their position among its cells. *)
Fixpoint code_from (i : nat) (cs : list cell) : list (nat * list stmt) :=
  match cs with
  | [] => []
  | Markdown _ :: cs' => code_from (S i) cs'
  | Code _ src _ :: cs' => (i, src) :: code_from (S i) cs'
  end.

Definition code_cells (nb : notebook) : list (nat * list stmt) :=
  code_from 0 (nb_cells nb).

Definition sources (nb : notebook) : list (list stmt) :=
  map snd (code_cells nb).

(** All code of a notebook, cell after cell. *)
Definition program (nb : notebook) : list stmt :=
  List.concat (sources nb).

(** Positions of the code cells whose source satisfies [p]. *)
Definition cells_where (p : list stmt -> bool) (nb : notebook) : list nat :=
  map fst (filter (fun c => p (snd c)) (code_cells nb)).

(** ** Syntactic classes *)

Definition is_try (s : stmt) : bool :=
  match s with STry _ _ => true | _ => false end.
Definition is_while (s : stmt) : bool :=
  match s with SWhile _ _ => true | _ => false end.
Definition is_for (s : stmt) : bool :=
  match s with SFor _ _ _ => true | _ => false end.
Definition is_if (s : stmt) : bool :=
  match s with SIf _ _ _ => true | _ => false end.
Definition is_classdef (s : stmt) : bool :=
  match s with SClassDef _ _ => true | _ => false end.
Definition is_functiondef (s : stmt) : bool :=
  match s with SFunctionDef _ _ _ => true | _ => false end.
Definition is_assert (s : stmt) : bool :=
  match s with SAssert _ => true | _ => false end.
Definition is_raise (s : stmt) : bool :=
  match s with SRaise _ => true | _ => false end.

Definition is_call (e : expr) : bool :=
  match e with ECall _ _ _ => true | _ => false end.
Definition is_ifexp (e : expr) : bool :=
  match e with EIfExp _ _ _ => true | _ => false end.
Definition is_and (e : expr) : bool :=
  match e with EAnd _ _ => true | _ => false end.
Definition is_comprehension (e : expr) : bool :=
  match e with EListComp _ _ _ | EDictComp _ _ _ _ => true | _ => false end.
Definition is_operator (e : expr) : bool :=
  match e with EBinOp _ _ _ | ENeg _ => true | _ => false end.
Definition is_lambda (e : expr) : bool :=
  match e with ELambda _ _ => true | _ => false end.
Definition is_suspension (e : expr) : bool :=
  match e with EAwait _ | EYield _ => true | _ => false end.

Definition has_stmt (p : stmt -> bool) (src : list stmt) : bool :=
  existsb p (all_stmts src).
Definition has_expr (p : expr -> bool) (src : list stmt) : bool :=
  existsb p (all_exprs src).

(** The name a call applies, when it applies a plain name; the method
    name when it applies an attribute. *)
Definition called_name (e : expr) : option string :=
  match e with ECall (EName f) _ _ => Some f | _ => None end.
Definition called_method (e : expr) : option string :=
  match e with ECall (EAttr _ m) _ _ => Some m | _ => None end.

Definition is_call_to (f : string) (e : expr) : bool :=
  match called_name e with Some g => String.eqb f g | None => false end.

Definition is_print_call (e : expr) : bool := is_call_to "print" e.

Definition calls_name (f : string) (src : list stmt) : bool :=
  has_expr (is_call_to f) src.

(** ** Reading recorded outputs *)

Definition stream_text (o : output) : list string :=
  match o with Stream _ t => t | _ => [] end.

(** The text a code cell wrote to its streams. *)
Definition printed_text (c : cell) : list string :=
  match c with
  | Code _ _ outs => flat_map stream_text outs
  | Markdown _ => []
  end.

Definition digit_of (c : ascii) : option Z :=
  let n := nat_of_ascii c in
  if ((48 <=? n) && (n <=? 57))%nat then Some (Z.of_nat (n - 48)) else None.

(** Digits with at most one decimal point: the digits read as one integer
    and the number of digits after the point. *)
Fixpoint decimal_digits (s : string) (m : Z) (frac : option nat)
  : option (Z * nat) :=
  match s with
  | EmptyString =>
      Some (m, match frac with Some k => k | None => 0%nat end)
  | String c s' =>
      if Ascii.eqb c "." then
        match frac with
        | None => decimal_digits s' m (Some 0%nat)
        | Some _ => None
        end
      else
        match digit_of c with
        | Some d => decimal_digits s' (10 * m + d) (option_map S frac)
        | None => None
        end
  end.

Definition decimal (sign m : Z) (k : nat) : Q :=
  (sign * m) # Z.to_pos (10 ^ Z.of_nat k).

(** A decimal numeral as printed by Python, read as the rational it
    denotes. *)
Definition parse_decimal (s : string) : option Q :=
  match s with
  | EmptyString => None
  | String "-" s' =>
      match s' with
      | EmptyString => None
      | _ => option_map (fun mk => decimal (-1) (fst mk) (snd mk))
                        (decimal_digits s' 0 None)
      end
  | _ => option_map (fun mk => decimal 1 (fst mk) (snd mk))
                    (decimal_digits s 0 None)
  end.

Definition strip_prefix (p s : string) : option string :=
  if String.prefix p s
  then Some (substring (String.length p) (String.length s - String.length p) s)
  else None.

(** [s] cut at every occurrence of the separator. *)
Fixpoint split_go (sep : string) (skip : nat) (cur s : string)
  : list string :=
  match s with
  | EmptyString => [cur]
  | String c s' =>
      match skip with
      | S k => split_go sep k cur s'
      | O =>
          if String.prefix sep s
          then cur :: split_go sep (String.length sep - 1) EmptyString s'
          else split_go sep 0 (cur ++ String c EmptyString) s'
      end
  end.

Definition split_on (sep s : string) : list string :=
  split_go sep 0 EmptyString s.

Fixpoint those {A : Type} (l : list (option A)) : option (list A) :=
  match l with
  | [] => Some []
  | None :: _ => None
  | Some a :: l' => option_map (cons a) (those l')
  end.

(** The lines that start with [p], without [p]. *)
Fixpoint lines_after (p : string) (ls : list string) : list string :=
  match ls with
  | [] => []
  | l :: ls' =>
      match strip_prefix p l with
      | Some r => r :: lines_after p ls'
      | None => lines_after p ls'
      end
  end.

(** *** [OptimizationResult.prettyprint] as recorded *)

Record solve_report : Type := {
  report_fval : Q;
  report_values : list (string * Q);
  report_status : string
}.

Definition read_binding (s : string) : option (string * Q) :=
  match split_on "=" s with
  | [name; v] => option_map (pair name) (parse_decimal v)
  | _ => None
  end.

Definition read_report (ls : list string) : option solve_report :=
  match ls with
  | [l1; l2; l3] =>
      match strip_prefix "objective function value: " l1,
            strip_prefix "variable values: " l2,
            strip_prefix "status: " l3 with
      | Some f, Some vs, Some st =>
          match parse_decimal f, those (map read_binding (split_on ", " vs)) with
          | Some fv, Some bs =>
              Some {| report_fval := fv; report_values := bs;
                      report_status := st |}
          | _, _ => None
          end
      | _, _, _ => None
      end
  | _ => None
  end.

(** *** [ElectronicStructureResult] printouts as recorded *)

Definition ground_state_header : string := "=== GROUND STATE ENERGY ===".

(** A stream cut into printouts, one per ground-state header; the text
    before the first header is dropped. *)
Fixpoint printouts_go (cur : option (list string)) (ls : list string)
  : list (list string) :=
  match ls with
  | [] => match cur with Some c => [c] | None => [] end
  | l :: ls' =>
      if String.eqb l ground_state_header then
        match cur with
        | Some c => c :: printouts_go (Some [l]) ls'
        | None => printouts_go (Some [l]) ls'
        end
      else
        printouts_go (option_map (fun c => (c ++ [l])%list) cur) ls'
  end.

Definition printouts (ls : list string) : list (list string) :=
  printouts_go None ls.

Definition total_excited_energies (printout : list string)
  : option (list Q) :=
  those (map parse_decimal
             (lines_after "> Total excited state energy (Hartree): " printout)).

(** *** The table [print_result] printed, as recorded *)

Definition is_digit (c : ascii) : bool :=
  match digit_of c with Some _ => true | None => false end.

Fixpoint digits_in (s : string) : list Z :=
  match s with
  | EmptyString => []
  | String c s' =>
      match digit_of c with
      | Some d => d :: digits_in s'
      | None => digits_in s'
      end
  end.

Record table_row : Type := {
  row_selection : list Z;
  row_value : Q;
  row_probability : Q
}.

Definition read_row (l : string) : option table_row :=
  match split_on "\t" l with
  | [sel; v; _; p] =>
      match parse_decimal v, parse_decimal p with
      | Some qv, Some qp =>
          Some {| row_selection := digits_in sel; row_value := qv;
                  row_probability := qp |}
      | _, _ => None
      end
  | _ => None
  end.

(** The rows under the table's rule (the first five lines are the
    optimum, a blank line and the three header lines). *)
Definition read_table (ls : list string) : option (list table_row) :=
  those (map read_row (skipn 5 ls)).

Fixpoint nonincreasing (l : list Q) : bool :=
  match l with
  | [] => true
  | a :: l' =>
      match l' with
      | [] => true
      | b :: _ => Qle_bool b a && nonincreasing l'
      end
  end.

(** ** Shapes of cells and notebooks *)

Definition count {A : Type} (p : A -> bool) (l : list A) : nat :=
  List.length (filter p l).

(** One call of [print] and one other call, nothing more. *)
Definition single_call_plus_print (src : list stmt) : bool :=
  let calls := filter is_call (all_exprs src) in
  ((count is_print_call calls =? 1)
   && (count (fun e => negb (is_print_call e)) calls =? 1))%nat.

(** Branching: an [if] statement, a conditional expression or a
    short-circuit [and]. *)
Definition has_branching (src : list stmt) : bool :=
  has_stmt is_if src || has_expr is_ifexp src || has_expr is_and src.

Definition has_loop (src : list stmt) : bool :=
  has_stmt is_for src || has_stmt is_while src
  || has_expr is_comprehension src.

(** Recovery, retry or validation: a handler, a [while] loop, an
    assertion, a [raise] or an [if] statement. *)
Definition has_recovery (src : list stmt) : bool :=
  has_stmt is_try src || has_stmt is_while src || has_stmt is_assert src
  || has_stmt is_raise src || has_stmt is_if src.

(** Expressions that only name, construct and read: names, literals,
    calls, attribute reads and displays of such. *)
Definition constructs_or_reads (e : expr) : bool :=
  match e with
  | EName _ | EInt _ | EBool _ | EFloat _ | EImag _ | EStr _
  | EAttr _ _ | ECall _ _ _ | EList _ | ETuple _ => true
  | _ => false
  end.

Definition plain_stmt (s : stmt) : bool :=
  match s with
  | SImport _ _ | SImportFrom _ _ | SAssign _ _ | SExpr _ | SMagic _ => true
  | _ => false
  end.

(** A cell that merely constructs instances through calls and reads
    fields. *)
Definition merely_constructs_and_reads (src : list stmt) : bool :=
  forallb plain_stmt (all_stmts src)
  && forallb constructs_or_reads (all_exprs src).

(** Names brought in by [from m import a, b]. *)
Definition imported_names (p : list stmt) : list string :=
  flat_map (fun s => match s with
                     | SImportFrom _ ns => ns
                     | _ => []
                     end) (all_stmts p).

Definition imported_modules (p : list stmt) : list string :=
  flat_map (fun s => match s with
                     | SImport m _ | SImportFrom m _ => [m]
                     | _ => []
                     end) (all_stmts p).

(** The package of a dotted module name. *)
Definition package (m : string) : string :=
  hd EmptyString (split_on "." m).

Definition mem (x : string) (l : list string) : bool :=
  existsb (String.eqb x) l.

Fixpoint dedup (l : list string) : list string :=
  match l with
  | [] => []
  | x :: l' => if mem x l' then dedup l' else x :: dedup l'
  end.

(** The expression first assigned to the name [x]. *)
Fixpoint definition_of (x : string) (p : list stmt) : option expr :=
  match p with
  | [] => None
  | SAssign (EName y) v :: p' =>
      if String.eqb x y then Some v else definition_of x p'
  | _ :: p' => definition_of x p'
  end.

(** The name or method an expression calls at its head. *)
Definition head_call (e : expr) : option string :=
  match called_name e with
  | Some f => Some f
  | None => called_method e
  end.

Definition mentions (x : string) (e : expr) : bool :=
  existsb (fun e' => match e' with
                     | EName y => String.eqb x y
                     | _ => false
                     end) (subexprs e).

(** Functions the program defines whose body calls [print]. *)
Definition printing_functions (p : list stmt) : list string :=
  flat_map (fun s => match s with
                     | SFunctionDef f _ b =>
                         if calls_name "print" b then [f] else []
                     | _ => []
                     end) p.

(** [s] prints a value built from [x], with [print] or with one of the
    functions [fs]. *)
Definition prints (fs : list string) (x : string) (s : stmt) : bool :=
  match s with
  | SExpr (ECall (EName f) [a] []) =>
      (String.eqb f "print" || mem f fs) && mentions x a
  | _ => false
  end.

Record solve_run : Type := {
  run_solver : option string;   (* what constructs the solver object *)
  run_solver_imported : bool;   (* that constructor is imported *)
  run_problem : string;         (* the variable passed to [solve] *)
  run_result : string;          (* the variable bound to the result *)
  run_printed : bool            (* a later statement prints it *)
}.

(** Every statement [r = s.solve(p)] of a program, in order. *)
Fixpoint solve_runs_from (whole : list stmt) (p : list stmt)
  : list solve_run :=
  match p with
  | [] => []
  | s :: p' =>
      match s with
      | SAssign (EName r) (ECall (EAttr (EName sv) "solve") [EName pb] []) =>
          let ctor := match definition_of sv whole with
                      | Some d => called_name d
                      | None => None
                      end in
          {| run_solver := ctor;
             run_solver_imported :=
               match ctor with
               | Some c => mem c (imported_names whole)
               | None => false
               end;
             run_problem := pb;
             run_result := r;
             run_printed := existsb (prints (printing_functions whole) r) p' |}
          :: solve_runs_from whole p'
      | _ => solve_runs_from whole p'
      end
  end.

Definition solve_runs (nb : notebook) : list solve_run :=
  solve_runs_from (program nb) (program nb).

(** The notebook passes a problem to a library solver and prints what it
    returns: it has a run, and every run has an imported solver and a
    printed result. *)
Definition solves_and_prints (nb : notebook) : bool :=
  match solve_runs nb with
  | [] => false
  | rs => forallb (fun r => run_solver_imported r && run_printed r) rs
  end.

(** Where the problem variable of a run comes from: the chain of
    constructors behind it, innermost last. *)
Fixpoint provenance (fuel : nat) (p : list stmt) (x : string)
  : list string :=
  match fuel with
  | O => []
  | S k =>
      match definition_of x p with
      | Some (ECall (EName f) args _) =>
          f :: match args with
               | EName y :: _ => provenance k p y
               | _ => []
               end
      | Some (ECall (EAttr (EName y) m) _ _) => m :: provenance k p y
      | _ => []
      end
  end.

(** Shape of every call of the name [f]: number of positional arguments
    and the keywords, in order. *)
Definition call_shapes (f : string) (p : list stmt)
  : list (nat * list string) :=
  flat_map (fun e => match e with
                     | ECall (EName g) args kws =>
                         if String.eqb f g
                         then [(List.length args, map fst kws)]
                         else []
                     | _ => []
                     end) (all_exprs p).




(** Names every call in the program applies. *)
Definition called_names (p : list stmt) : list string :=
  flat_map (fun e => match called_name e with
                     | Some f => [f]
                     | None => []
                     end) (all_exprs p).

(** Modules and callables of Python's concurrent execution support, and
    QuTiP's parallel maps, which [from qutip import *] brings in. *)
Definition concurrency_packages : list string :=
  ["threading"; "multiprocessing"; "concurrent"; "asyncio"; "subprocess";
   "sched"; "queue"; "signal"; "_thread"; "contextvars"; "select";
   "selectors"; "joblib"; "dask"; "ray"].

Definition concurrency_callables : list string :=
  ["Thread"; "Process"; "Pool"; "ThreadPoolExecutor"; "ProcessPoolExecutor";
   "Timer"; "scheduler"; "create_task"; "ensure_future"; "gather";
   "run_coroutine_threadsafe"; "parfor"; "parallel_map"; "Popen"].

Definition assignment_targets (p : list stmt) : list expr :=
  flat_map (fun s => match s with SAssign t _ => [t] | _ => [] end) p.





(** ** The QUBO of the Grover notebook *)

(** Integer arithmetic of the expressions a docplex objective is written
    with, the binary variables read from [env]. *)
Fixpoint eval_arith (env : string -> option Z) (e : expr) : option Z :=
  match e with
  | EInt n => Some n
  | EName x => env x
  | ENeg a => option_map Z.opp (eval_arith env a)
  | EBinOp a op b =>
      match eval_arith env a, eval_arith env b with
      | Some x, Some y =>
          match op with
          | Add => Some (x + y)%Z
          | Sub => Some (x - y)%Z
          | Mult => Some (x * y)%Z
          | _ => None
          end
      | _, _ => None
      end
  | _ => None
  end.

(** The argument of [model.minimize(...)] in a cell. *)
Definition minimized (c : cell) : option expr :=
  match c with
  | Code _ src _ =>
      hd_error
        (flat_map (fun s => match s with
                            | SExpr (ECall (EAttr (EName "model") "minimize")
                                           [obj] []) => [obj]
                            | _ => []
                            end) src)
  | Markdown _ => None
  end.

Definition binary_env (x0 x1 x2 : Z) (x : string) : option Z :=
  if String.eqb x "x0" then Some x0
  else if String.eqb x "x1" then Some x1
  else if String.eqb x "x2" then Some x2
  else None.

(** [-x0 + 2 * x1 - 3 * x2 - 2 * x0 * x2 - 1 * x1 * x2] *)
Definition objective (x0 x1 x2 : Z) : Z :=
  (- x0 + 2 * x1 - 3 * x2 - 2 * x0 * x2 - 1 * x1 * x2)%Z.

(** The eight points of the search space with their objective values. *)
Definition search_space : list (Z * Z * Z) :=
  flat_map (fun x0 => flat_map (fun x1 => map (fun x2 => (x0, x1, x2))
                                              [0; 1]%Z) [0; 1]%Z) [0; 1]%Z.

Definition objective_at (x : Z * Z * Z) : Z :=
  match x with (x0, x1, x2) => objective x0 x1 x2 end.

(** ** [filter_criterion] of the excited-states notebook *)

Module Excited.

(** [numpy.isclose] with its default tolerances, on exact values:
    [|a - b| <= atol + rtol * |b|].  numpy computes in doubles, whose
    [1e-5] and [1e-8] lie a little above these two rationals; what is
    proved of the thresholds below keeps clear of that difference. *)
Definition rtol : Q := 1 # 100000.
Definition atol : Q := 1 # 100000000.

Definition isclose (a b : Q) : bool :=
  Qle_bool (Qabs (a - b)) (atol + rtol * Qabs b).

Inductive lookup_error : Type := KeyError | IndexError.

(** [aux_values[key][0]] *)
Definition first_of (aux_values : list (string * list Q)) (key : string)
  : Q + lookup_error :=
  match find (fun kv => String.eqb key (fst kv)) aux_values with
  | None => inr KeyError
  | Some kv =>
      match snd kv with
      | [] => inr IndexError
      | v :: _ => inl v
      end
  end.

(** The magnetization is read only when the particle number is close to
    two: [and] short-circuits. *)
Definition filter_criterion {E V : Type} (eigenstate : E) (eigenvalue : V)
    (aux_values : list (string * list Q)) : bool + lookup_error :=
  match first_of aux_values "ParticleNumber" with
  | inr err => inr err
  | inl n =>
      if isclose n 2 then
        match first_of aux_values "Magnetization" with
        | inr err => inr err
        | inl m => inl (isclose m 0)
        end
      else inl false
  end.

(** The observables of one state as printed under
    [=== MEASURED OBSERVABLES ===]. *)
Fixpoint field_after (key : string) (fields : list string) : option Q :=
  match fields with
  | [] => None
  | f :: fs =>
      if String.eqb f key
      then match fs with
           | v :: _ => parse_decimal v
           | [] => None
           end
      else field_after key fs
  end.

Definition read_observables (l : string) : option (list (string * list Q)) :=
  let fs := split_on " " l in
  match field_after "Particles:" fs, field_after "M:" fs with
  | Some n, Some m => Some [("ParticleNumber", [n]); ("Magnetization", [m])]
  | _, _ => None
  end.

Definition mentions_particles (l : string) : bool :=
  match field_after "Particles:" (split_on " " l) with
  | Some _ => true
  | None => false
  end.

(** Observables of the excited states of a printout (state 0, the ground
    state, left out). *)
Definition excited_observables (printout : list string)
  : option (list (list (string * list Q))) :=
  those (map read_observables (tl (filter mentions_particles printout))).

Definition within (tol a b : Q) : bool := Qle_bool (Qabs (a - b)) tol.

Fixpoint all_within (tol : Q) (l1 l2 : list Q) : bool :=
  match l1, l2 with
  | a :: l1', b :: l2' => within tol a b && all_within tol l1' l2'
  | _, _ => true
  end.

End Excited.

(** ** [print_result] of the portfolio notebook *)

Module Portfolio.

(** An eigenstate is a [QuasiDistribution], seen through
    [binary_probabilities()], or a state seen through [to_dict()], which
    maps bitstrings to complex amplitudes.  Dictionaries are association
    lists in insertion order; probabilities and amplitudes are exact
    rationals. *)
Inductive eigenstate : Type :=
| QuasiDistribution (binary_probabilities : list (string * Q))
| StateFn (to_dict : list (string * (Q * Q))).

Record result : Type := {
  x : list Q;
  fval : Q;
  min_eigen_solver_result_eigenstate : eigenstate
}.

(** What [print] wrote, one item per call. *)
Inductive printed : Type :=
| Optimal (selection : list Q) (value : Q)
| Text (s : string)
| Row (x : list Z) (value : Q) (v : Q).

(** [np.abs(v) ** 2], as the exact square of the modulus; the doubles
    of the code round it. *)
Definition abs2 (v : Q * Q) : Q := fst v * fst v + snd v * snd v.

Definition probabilities_of (e : eigenstate) : list (string * Q) :=
  match e with
  | QuasiDistribution bp => bp
  | StateFn d => map (fun kv => (fst kv, abs2 (snd kv))) d
  end.

(** [sorted(items, key=lambda x: x[1], reverse=True)]: descending by
    value, stable. *)
Fixpoint insert_desc (a : string * Q) (l : list (string * Q))
  : list (string * Q) :=
  match l with
  | [] => [a]
  | b :: l' =>
      if Qle_bool (snd b) (snd a) then a :: l else b :: insert_desc a l'
  end.

Fixpoint sorted_reverse (l : list (string * Q)) : list (string * Q) :=
  match l with
  | [] => []
  | a :: l' => insert_desc a (sorted_reverse l')
  end.

Fixpoint chars (s : string) : list ascii :=
  match s with
  | EmptyString => []
  | String c s' => c :: chars s'
  end.

(** [[int(i) for i in list(reversed(k))]]; [None] is the [ValueError] of
    [int] on a character that is not a digit. *)
Definition selection_of (k : string) : option (list Z) :=
  those (map digit_of (rev (chars k))).

(** How the call ends: it returns, [int] raises its [ValueError], or
    [objective.evaluate] raises. *)
Inductive status : Type := Finished | ValueError | EvaluateRaised.

Section PrintResult.

(** [portfolio.to_quadratic_program().objective.evaluate]; [None] when it
    raises, as it does on a selection that has not one entry per asset
    ([ValueError: dimension mismatch]). *)
Variable evaluate : list Z -> option Q.

(** The loop over the sorted items; it stops at the first key [int]
    rejects and at the first selection [evaluate] rejects, before
    printing the row. *)
Fixpoint print_rows (items : list (string * Q)) : list printed * status :=
  match items with
  | [] => ([], Finished)
  | (k, v) :: items' =>
      match selection_of k with
      | None => ([], ValueError)
      | Some sel =>
          match evaluate sel with
          | None => ([], EvaluateRaised)
          | Some value =>
              let rest := print_rows items' in
              (Row sel value v :: fst rest, snd rest)
          end
      end
  end.

Definition print_result (r : result) : list printed * status :=
  let selection := x r in
  let value := fval r in
  let eigenstate := min_eigen_solver_result_eigenstate r in
  let probabilities := probabilities_of eigenstate in
  let probabilities := sorted_reverse probabilities in
  let rows := print_rows probabilities in
  ([Optimal selection value;
    Text "\n----------------- Full result ---------------------";
    Text "selection\tvalue\t\tprobability";
    Text "---------------------------------------------------"]
   ++ fst rows, snd rows)%list.

End PrintResult.

(** The rows of a printout as (selection, value, probability). *)
Fixpoint rows_of (out : list printed) : list (list Z * Q * Q) :=
  match out with
  | [] => []
  | Row sel value v :: out' => (sel, value, v) :: rows_of out'
  | _ :: out' => rows_of out'
  end.

Definition row_probability_of (r : list Z * Q * Q) : Q := snd r.

(** A row printed for an item: the reversed key, its objective value and
    the item's probability. *)
Definition row_for (evaluate : list Z -> option Q) (r : list Z * Q * Q)
    (item : string * Q) : Prop :=
  selection_of (fst item) = Some (fst (fst r))
  /\ evaluate (fst (fst r)) = Some (snd (fst r))
  /\ snd r = snd item.

(** Keys are strings of ASCII characters, one byte a character, as the
    bitstrings of a solver are; on them a character [int] accepts is one
    of the ten digits. *)
Definition is_ascii (c : ascii) : bool := (nat_of_ascii c <? 128)%nat.

Definition ascii_key (k : string) : bool := forallb is_ascii (chars k).

(** [sel] is the key read from its end: one entry per character, entry
    [i] the digit of the character [i] places before the last. *)
Definition reads_backwards (k : string) (sel : list Z) : Prop :=
  List.length sel = String.length k
  /\ forall i, (i < String.length k)%nat ->
       exists c d, String.get (String.length k - S i) k = Some c
                   /\ digit_of c = Some d
                   /\ nth_error sel i = Some d.

(** A row as printed for a dictionary entry: the key read backwards, the
    objective there and the entry's probability. *)
Definition row_of_entry (evaluate : list Z -> option Q)
    (r : list Z * Q * Q) (item : string * Q) : Prop :=
  reads_backwards (fst item) (fst (fst r))
  /\ evaluate (fst (fst r)) = Some (snd (fst r))
  /\ snd r = snd item.

(** Descending order of the probabilities, on items and on rows. *)
Definition by_value_desc (a b : string * Q) : Prop := snd b <= snd a.

Definition row_desc (r1 r2 : list Z * Q * Q) : Prop := snd r2 <= snd r1.

End Portfolio.

(** ** Running a block of statements

    What the libraries do is left open: a simple statement, the
    evaluation of a test or of an iterable either goes through or raises.
    Only the control flow the notebook writes itself is spelled out. *)

Section Execution.

Variables State Exn : Type.

(** An import, assignment, expression statement or magic: the new
    kernel state, or the exception a call in it raised. *)
Variable run_simple : stmt -> State -> State + Exn.
(** A test or an iterable: its truth value, or the number of items it
    yields, as a number. *)
Variable eval : expr -> State -> (nat * State) + Exn.
(** Binding of a loop target to the next item. *)
Variable bind : expr -> State -> State.
(** Binding of the name of a function or class. *)
Variable define : stmt -> State -> State.
(** The exception a [raise] statement raises. *)
Variable exn_of : expr -> State -> Exn.
Variable assertion_error : Exn.

Inductive outcome : Type :=
| Normal
| Returned
| Raised (x : Exn)
| Diverged.

(** One event per library step: it went through, or it raised. *)
Inductive event : Type :=
| Step
| Raise (x : Exn).

Record run : Type := {
  out : outcome;
  final : State;
  trace : list event
}.

Definition done (s : State) : run :=
  {| out := Normal; final := s; trace := [] |}.

Definition raised (x : Exn) (s : State) : run :=
  {| out := Raised x; final := s; trace := [Raise x] |}.

Definition after (t : list event) (r : run) : run :=
  {| out := out r; final := final r; trace := (t ++ trace r)%list |}.

(** [r], then [k] if [r] ended normally. *)
Definition and_then (r : run) (k : State -> run) : run :=
  match out r with
  | Normal => after (trace r) (k (final r))
  | _ => r
  end.

Definition exec_simple (s : stmt) (st : State) : run :=
  match run_simple s st with
  | inl st' => {| out := Normal; final := st'; trace := [Step] |}
  | inr x => raised x st
  end.

Definition exec_eval (e : expr) (st : State) (k : nat -> State -> run)
  : run :=
  match eval e st with
  | inl (n, st') => after [Step] (k n st')
  | inr x => raised x st
  end.

Fixpoint exec_block (exec1 : stmt -> State -> run) (l : list stmt)
    (st : State) : run :=
  match l with
  | [] => done st
  | s :: l' => and_then (exec1 s st) (exec_block exec1 l')
  end.

(** [n] rounds of a loop body. *)
Fixpoint exec_rounds (body : State -> run) (n : nat) (st : State) : run :=
  match n with
  | O => done st
  | S n' => and_then (body st) (exec_rounds body n')
  end.

(** A [while] loop, given up after [fuel] rounds. *)
Fixpoint exec_while (fuel : nat) (test : expr) (body : State -> run)
    (st : State) : run :=
  match fuel with
  | O => {| out := Diverged; final := st; trace := [] |}
  | S k =>
      exec_eval test st
        (fun n st' =>
           match n with
           | O => done st'
           | _ => and_then (body st') (exec_while k test body)
           end)
  end.

Fixpoint exec (fuel : nat) (s : stmt) (st : State) {struct s} : run :=
  match s with
  | SImport _ _ | SImportFrom _ _ | SAssign _ _ | SExpr _ | SMagic _ =>
      exec_simple s st
  | SFunctionDef _ _ _ => done (define s st)
  | SClassDef _ b =>
      and_then (exec_block (exec fuel) b st) (fun st' => done (define s st'))
  | SReturn e =>
      exec_eval e st
        (fun _ st' => {| out := Returned; final := st'; trace := [] |})
  | SFor t it b =>
      exec_eval it st
        (exec_rounds (fun st' => exec_block (exec fuel) b (bind t st')))
  | SWhile e b => exec_while fuel e (exec_block (exec fuel) b) st
  | SIf e b o =>
      exec_eval e st
        (fun n st' =>
           exec_block (exec fuel) (match n with O => o | _ => b end) st')
  | STry b h =>
      let r := exec_block (exec fuel) b st in
      match out r with
      | Raised _ => after (trace r) (exec_block (exec fuel) h (final r))
      | _ => r
      end
  | SAssert e =>
      exec_eval e st
        (fun n st' =>
           match n with
           | O => raised assertion_error st'
           | _ => done st'
           end)
  | SRaise e => raised (exn_of e st) st
  end.

(** A cell, or the body of a function, run from [st]. *)
Definition run_block (fuel : nat) (l : list stmt) (st : State) : run :=
  exec_block (exec fuel) l st.

Definition is_step (ev : event) : bool :=
  match ev with Step => true | Raise _ => false end.

(** No step of the trace raised. *)
Definition silent (t : list event) : bool := forallb is_step t.

(** A raise, if there is one, is the last event and is the outcome. *)
Definition raise_is_last (r : run) : Prop :=
  match out r with
  | Raised x => exists t, trace r = (t ++ [Raise x])%list /\ silent t = true
  | _ => silent (trace r) = true
  end.

End Execution.

Arguments Normal {Exn}.
Arguments Returned {Exn}.
Arguments Raised {Exn} x.
Arguments Diverged {Exn}.
Arguments Step {Exn}.
Arguments Raise {Exn} x.
Arguments out {State Exn} r.
Arguments final {State Exn} r.
Arguments trace {State Exn} r.
Arguments silent {Exn} t.
Arguments raise_is_last {State Exn} r.

(** The blocks of a cell: its top level and the body of every function
    it defines. *)
Definition blocks (src : list stmt) : list (list stmt) :=
  src :: flat_map (fun s => match s with
                            | SFunctionDef _ _ b => [b]
                            | _ => []
                            end) (all_stmts src).

(** ** Recorded results and a sample library *)

Definition source_of (c : cell) : list stmt :=
  match c with
  | Code _ src _ => src
  | Markdown _ => []
  end.

(** The heading that opens a notebook: the first line of its first
    markdown cell. *)
Definition title (nb : notebook) : option string :=
  hd_error (flat_map (fun c => match c with
                               | Markdown l => [l]
                               | Code _ _ _ => []
                               end) (nb_cells nb)).

Definition applied_names (p : list stmt) : list string :=
  flat_map (fun e => match head_call e with
                     | Some f => [f]
                     | None => []
                     end) (all_exprs p).

(** A cell that suspends, imports a concurrency package or applies one of
    the concurrency callables, in its own code; what a library starts
    inside a call does not show here. *)
Definition uses_concurrency (src : list stmt) : bool :=
  has_expr is_suspension src
  || existsb (fun m => mem (package m) concurrency_packages)
             (imported_modules src)
  || existsb (fun f => mem f concurrency_callables) (applied_names src).

(** What [print(results.prettyprint())] and
    [print(exact_result.prettyprint())] wrote in the Grover notebook. *)
Definition grover_recorded : list string :=
  printed_text Grover_optimizer.cell_07.

Definition exact_recorded : list string :=
  printed_text Grover_optimizer.cell_10.

(** Cell 10 of the excited-states notebook prints [numpy_results], three
    blank lines, then [qeom_results]; cell 12 prints
    [new_numpy_results]. *)
Definition nth_printout (n : nat) (c : cell) : list string :=
  nth n (printouts (printed_text c)) [].

Definition numpy_results : list string :=
  nth_printout 0 Excited_states_solvers.cell_10.

Definition qeom_results : list string :=
  nth_printout 1 Excited_states_solvers.cell_10.

Definition new_numpy_results : list string :=
  nth_printout 0 Excited_states_solvers.cell_12.

Definition energies_of (printout : list string) : list Q :=
  match total_excited_energies printout with
  | Some l => l
  | None => []
  end.

(** The three tables [print_result] printed in the portfolio notebook. *)
Definition recorded_tables : list cell :=
  [Portfolio_optimization.cell_10; Portfolio_optimization.cell_12;
   Portfolio_optimization.cell_14].

Definition recorded_probabilities (c : cell) : option (list Q) :=
  option_map (map row_probability) (read_table (printed_text c)).

(** A library whose [solve] fails; the state counts the statements that
    went through. *)
Definition solve_fails (s : stmt) (n : nat) : nat + string :=
  match s with
  | SAssign _ (ECall (EAttr _ m) _ _) =>
      if String.eqb m "solve" then inr "QiskitOptimizationError"
      else inl (S n)
  | _ => inl (S n)
  end.

Definition run_solve_fails (l : list stmt) : run nat string :=
  run_block nat string solve_fails (fun _ n => inl (1%nat, n))
            (fun _ n => n) (fun _ n => n) (fun _ _ => "Exception")
            "AssertionError" 0 l 0%nat.

(** ** Further readings of the notebooks *)

(** *** Names bound before they are read *)

(** Python built-ins a cell may apply without importing them. *)
Definition builtins : list string :=
  ["print"; "range"; "isinstance"; "sorted"; "int"; "list"; "reversed";
   "len"; "str"; "float"; "abs"; "sum"; "min"; "max"; "zip"; "enumerate";
   "dict"; "tuple"; "set"; "bool"; "map"; "filter"; "type"].

(** Names an assignment or loop target binds. *)
Fixpoint target_names (t : expr) : list string :=
  match t with
  | EName x => [x]
  | ETuple ts | EList ts => flat_map target_names ts
  | _ => []
  end.

(** Names an expression reads that [bound] does not hold; a lambda binds
    its parameters and a comprehension its target. *)
Fixpoint unbound (bound : list string) (e : expr) : list string :=
  match e with
  | EName x => if mem x bound then [] else [x]
  | EInt _ | EBool _ | EFloat _ | EImag _ | EStr _ => []
  | EAttr v _ => unbound bound v
  | ESubscript v i => unbound bound v ++ unbound bound i
  | ECall f args kws =>
      unbound bound f ++ flat_map (unbound bound) args
      ++ flat_map (fun kw => unbound bound (snd kw)) kws
  | EBinOp l _ r => unbound bound l ++ unbound bound r
  | ENeg v => unbound bound v
  | EAnd l r => unbound bound l ++ unbound bound r
  | EIfExp t b o => unbound bound t ++ unbound bound b ++ unbound bound o
  | ELambda ps b => unbound (ps ++ bound) b
  | EList es | ETuple es => flat_map (unbound bound) es
  | EListComp elt t it =>
      unbound bound it ++ unbound (target_names t ++ bound) elt
  | EDictComp k v t it =>
      unbound bound it ++ unbound (target_names t ++ bound) k
      ++ unbound (target_names t ++ bound) v
  | EAwait v | EYield v => unbound bound v
  end.

(** What a target reads: the object of an attribute or item it writes. *)
Definition target_reads (bound : list string) (t : expr) : list string :=
  match t with
  | EAttr v _ => unbound bound v
  | ESubscript v i => unbound bound v ++ unbound bound i
  | _ => []
  end.

(** A block scanned top to bottom: the names bound after it and the names
    read before anything bound them. *)
Definition scan_block (scan1 : stmt -> list string -> list string * list string)
    (l : list stmt) (bound : list string) : list string * list string :=
  fold_left (fun acc s => let r := scan1 s (fst acc) in
                          (fst r, (snd acc ++ snd r)%list)) l (bound, []).

(** A function body is scanned where the function is defined, with the
    parameters bound; what it binds stays local.  The branches of a
    conditional or of a handler bind nothing for what follows. *)
Fixpoint scan (s : stmt) (bound : list string) : list string * list string :=
  match s with
  | SImport m a =>
      ((match a with Some n => n | None => package m end) :: bound, [])
  | SImportFrom _ ns => ((ns ++ bound)%list, [])
  | SAssign t v =>
      ((target_names t ++ bound)%list,
       (unbound bound v ++ target_reads bound t)%list)
  | SExpr v | SReturn v | SAssert v | SRaise v => (bound, unbound bound v)
  | SFunctionDef f ps b =>
      (f :: bound, snd (scan_block scan b (ps ++ f :: bound)%list))
  | SClassDef c b => (c :: bound, snd (scan_block scan b bound))
  | SFor t it b =>
      let r := scan_block scan b (target_names t ++ bound)%list in
      (fst r, (unbound bound it ++ snd r)%list)
  | SWhile e b =>
      let r := scan_block scan b bound in
      (fst r, (unbound bound e ++ snd r)%list)
  | SIf e b o =>
      (bound, (unbound bound e ++ snd (scan_block scan b bound)
               ++ snd (scan_block scan o bound))%list)
  | STry b h =>
      (bound, (snd (scan_block scan b bound)
               ++ snd (scan_block scan h bound))%list)
  | SMagic _ => (bound, [])
  end.

(** Names a notebook reads before it binds them, cells run in order. *)
Definition unbound_names (nb : notebook) : list string :=
  dedup (snd (scan_block scan (program nb) builtins)).

(** *** The tickers of the portfolio notebook *)

(** [str(i)] of a natural number. *)
Definition str_of_nat (i : nat) : string :=
  DecimalString.NilEmpty.string_of_uint (Nat.to_uint i).

(** [[("TICKER%s" % i) for i in range(num_assets)]] *)
Definition stocks (num_assets : nat) : list string :=
  map (fun i => "TICKER" ++ str_of_nat i) (seq 0 num_assets).

(** *** The budget and the recorded optimum *)

(** [num_assets = 4] and [budget = num_assets // 2]. *)
Definition num_assets : Z := 4.

Definition budget : Z := (num_assets / 2)%Z.

(** Number of assets a selection picks. *)
Definition picked (sel : list Z) : Z := fold_right Z.add 0%Z sel.

Definition within_budget (sel : list Z) : bool := (picked sel =? budget)%Z.

Fixpoint same_selection (a b : list Z) : bool :=
  match a, b with
  | [], [] => true
  | x :: a', y :: b' => (x =? y)%Z && same_selection a' b'
  | _, _ => false
  end.

(** ["Optimal: selection {}, value {:.4f}"] as recorded: the digits of
    the selection and the value. *)
Definition read_optimum (ls : list string) : option (list Z * Q) :=
  match ls with
  | [] => None
  | l :: _ =>
      match strip_prefix "Optimal: selection " l with
      | None => None
      | Some rest =>
          match split_on ", value " rest with
          | [sel; v] => option_map (pair (digits_in sel)) (parse_decimal v)
          | _ => None
          end
      end
  end.

(** The optimum respects the budget, is a row of the table, and no row
    within the budget has a smaller value. *)
Definition best_within_budget (c : cell) : bool :=
  match read_optimum (printed_text c), read_table (printed_text c) with
  | Some (sel, v), Some rows =>
      within_budget sel
      && existsb (fun r => same_selection sel (row_selection r)
                           && Qeq_bool (row_value r) v) rows
      && forallb (fun r => negb (within_budget (row_selection r))
                           || Qle_bool v (row_value r)) rows
  | _, _ => false
  end.

(** Some row outside the budget has a value below the optimum. *)
Definition undercut_outside_budget (c : cell) : bool :=
  match read_optimum (printed_text c), read_table (printed_text c) with
  | Some (_, v), Some rows =>
      existsb (fun r => negb (within_budget (row_selection r))
                        && negb (Qle_bool v (row_value r))) rows
  | _, _ => false
  end.

(** *** Parts of the recorded energies *)

Definition energy_lines (ground excited : string) (printout : list string)
  : option (list Q) :=
  those (map parse_decimal
             (lines_after ground printout ++ lines_after excited printout)%list).

(** Ground state first, then the excited states. *)
Definition electronic_energies : list string -> option (list Q) :=
  energy_lines "* Electronic ground state energy (Hartree): "
               "* Electronic excited state energy (Hartree): ".

Definition total_energies : list string -> option (list Q) :=
  energy_lines "> Total ground state energy (Hartree): "
               "> Total excited state energy (Hartree): ".

Definition nuclear_repulsion (printout : list string) : option Q :=
  match lines_after "~ Nuclear repulsion energy (Hartree): " printout with
  | [l] => parse_decimal l
  | _ => None
  end.

(** Every total energy is the electronic energy plus the nuclear
    repulsion. *)
Definition energies_add_up (printout : list string) : Prop :=
  match electronic_energies printout, nuclear_repulsion printout,
        total_energies printout with
  | Some es, Some n, Some ts =>
      es <> [] /\ Forall2 (fun e t => e + n == t) es ts
  | _, _, _ => False
  end.

(** The spin [S] recorded for each excited state of a printout. *)
Definition excited_spins (printout : list string) : option (list Q) :=
  those (map (fun l => Excited.field_after "S:" (split_on " " l))
             (tl (filter Excited.mentions_particles printout))).

(** Energies of the excited states recorded with spin zero. *)
Definition singlet_energies (printout : list string) : list Q :=
  match excited_spins printout with
  | Some ss =>
      map snd (filter (fun se => Qeq_bool (fst se) 0)
                      (combine ss (energies_of printout)))
  | None => []
  end.

(** *** The objective as [qp.prettyprint()] recorded it *)

Definition int_literal (s : string) : option Z :=
  match s with
  | EmptyString => None
  | _ => match decimal_digits s 0 None with
         | Some (m, O) => Some m
         | _ => None
         end
  end.

(** A factor is an integer or a variable. *)
Definition eval_factor (env : string -> option Z) (f : string) : option Z :=
  match int_literal f with
  | Some n => Some n
  | None => env f
  end.

(** A product of factors, with an optional leading minus. *)
Definition eval_term (env : string -> option Z) (t : string) : option Z :=
  let body := match t with String "-" t' => t' | _ => t end in
  let sign := match t with String "-" _ => (-1)%Z | _ => 1%Z end in
  option_map (fun vs => (sign * fold_right Z.mul 1 vs)%Z)
             (those (map (eval_factor env) (split_on "*" body))).

(** Terms joined by [+] and [-], read left to right. *)
Fixpoint eval_terms (env : string -> option Z) (acc : Z) (ws : list string)
  : option Z :=
  match ws with
  | [] => Some acc
  | op :: t :: ws' =>
      match eval_term env t with
      | None => None
      | Some v =>
          if String.eqb op "+" then eval_terms env (acc + v)%Z ws'
          else if String.eqb op "-" then eval_terms env (acc - v)%Z ws'
          else None
      end
  | _ => None
  end.

Definition eval_printed (env : string -> option Z) (line : string)
  : option Z :=
  match filter (fun w => negb (String.eqb w EmptyString)) (split_on " " line) with
  | [] => None
  | t :: ws =>
      match eval_term env t with
      | Some v => eval_terms env v ws
      | None => None
      end
  end.

(** The line under [Minimize] in what cell 5 of the Grover notebook
    printed. *)
Definition printed_objective : string :=
  nth 3 (printed_text Grover_optimizer.cell_05) EmptyString.

(** *** Names assigned and never read *)

(** The expressions a statement reads: an assignment reads its value and
    the object whose attribute or item it writes, a loop its iterable. *)
Definition read_heads (s : stmt) : list expr :=
  match s with
  | SAssign t v =>
      v :: match t with
           | EAttr b _ => [b]
           | ESubscript b i => [b; i]
           | _ => []
           end
  | SFor _ it _ => [it]
  | _ => head_exprs s
  end.

Definition read_names (p : list stmt) : list string :=
  flat_map (fun e => match e with EName x => [x] | _ => [] end)
           (flat_map subexprs (flat_map read_heads (all_stmts p))).

(** Names assigned at the top of a cell. *)
Definition assigned_names (p : list stmt) : list string :=
  dedup (flat_map target_names (assignment_targets p)).

Definition never_read (p : list stmt) : list string :=
  filter (fun x => negb (mem x (read_names p))) (assigned_names p).

(** Names an import binds: [import m as a] binds [a], [import m] the
    package of [m], [from m import a, b] binds [a] and [b]. *)
Definition named_imports (p : list stmt) : list string :=
  flat_map (fun s => match s with
                     | SImport _ (Some a) => [a]
                     | SImport m None => [package m]
                     | SImportFrom _ ns => ns
                     | _ => []
                     end) p.

(** A cell that imports [qiskit.tools.jupyter] and then runs a magic:
    the import is there for the magics it registers. *)
Definition imports_for_magics (src : list stmt) : bool :=
  existsb (fun s => match s with
                    | SImport m None => String.eqb m "qiskit.tools.jupyter"
                    | _ => false
                    end) src
  && existsb (fun s => match s with SMagic _ => true | _ => false end) src.

Definition unused_imports (p : list stmt) : list string :=
  filter (fun x => negb (mem x (read_names p) || String.eqb x "*"))
         (named_imports p).

(** *** Keys and rows of [print_result] *)

(** A key [int] accepts character by character. *)
Definition all_digits (k : string) : bool :=
  forallb is_digit (Portfolio.chars k).

(** An objective of two assets: it counts the assets picked, and raises
    on a selection of another length. *)
Definition count_of_two (sel : list Z) : option Q :=
  if (List.length sel =? 2)%nat
  then Some (inject_Z (fold_right Z.add 0%Z sel))
  else None.

(** [int] accepts the key and [evaluate] its selection. *)
Definition accepted (evaluate : list Z -> option Q) (item : string * Q)
  : Prop :=
  all_digits (fst item) = true
  /\ evaluate (rev (digits_in (fst item))) <> None.

(** * Properties *)

(** ** Induction on nested statements *)

Lemma stmt_children_ind (P : stmt -> Prop) :
  (forall s, Forall P (children s) -> P s) -> forall s, P s.
Proof.
  intros H.
  fix IH 1.
  intros s. apply H.
  destruct s; simpl; try apply Forall_nil.
  - induction body; constructor; [apply IH | assumption].
  - induction body; constructor; [apply IH | assumption].
  - induction body; constructor; [apply IH | assumption].
  - induction body; constructor; [apply IH | assumption].
  - apply Forall_app; split.
    + induction body; constructor; [apply IH | assumption].
    + induction orelse; constructor; [apply IH | assumption].
  - apply Forall_app; split.
    + induction body; constructor; [apply IH | assumption].
    + induction handler; constructor; [apply IH | assumption].
Qed.

Lemma substmts_children (s : stmt) :
  substmts s = s :: flat_map substmts (children s).
Proof.
  destruct s; simpl; try reflexivity;
    now rewrite flat_map_app.
Qed.

(** A block free of [p] has statements free of [p], and so have their
    children. *)
Lemma free_cons (p : stmt -> bool) (s : stmt) (l : list stmt) :
  has_stmt p (s :: l) = false ->
  p s = false /\ has_stmt p (children s) = false /\ has_stmt p l = false.
Proof.
  unfold has_stmt, all_stmts. simpl.
  rewrite existsb_app, substmts_children. simpl.
  intros H.
  apply orb_false_iff in H. destruct H as [H1 H2].
  apply orb_false_iff in H1. destruct H1 as [H0 H1].
  auto.
Qed.

Lemma free_app (p : stmt -> bool) (l1 l2 : list stmt) :
  has_stmt p (l1 ++ l2) = false ->
  has_stmt p l1 = false /\ has_stmt p l2 = false.
Proof.
  unfold has_stmt, all_stmts.
  rewrite flat_map_app, existsb_app.
  intros H. now apply orb_false_iff in H.
Qed.

(** ** Exceptions in blocks without handlers *)

Section ExecutionFacts.

Variables State Exn : Type.
Variable run_simple : stmt -> State -> State + Exn.
Variable eval : expr -> State -> (nat * State) + Exn.
Variable bind : expr -> State -> State.
Variable define : stmt -> State -> State.
Variable exn_of : expr -> State -> Exn.
Variable assertion_error : Exn.

Local Abbreviation run := (run State Exn).
Local Abbreviation exec :=
  (exec State Exn run_simple eval bind define exn_of assertion_error).
Local Abbreviation run_block :=
  (run_block State Exn run_simple eval bind define exn_of assertion_error).
Local Abbreviation exec_eval := (exec_eval State Exn eval).
Local Abbreviation exec_while := (exec_while State Exn eval).
Local Abbreviation and_then := (and_then State Exn).
Local Abbreviation after := (after State Exn).
Local Abbreviation done := (done State Exn).
Local Abbreviation raised := (raised State Exn).

Lemma silent_app (t1 t2 : list (event Exn)) :
  silent (t1 ++ t2) = silent t1 && silent t2.
Proof. apply forallb_app. Qed.

Lemma last_done (st : State) : raise_is_last (done st).
Proof. reflexivity. Qed.

Lemma last_raised (x : Exn) (st : State) : raise_is_last (raised x st).
Proof. exists []. split; reflexivity. Qed.

Lemma last_after (t : list (event Exn)) (r : run) :
  silent t = true -> raise_is_last r -> raise_is_last (after t r).
Proof.
  unfold raise_is_last. simpl. intros Ht Hr.
  destruct (out r).
  - rewrite silent_app, Ht, Hr. reflexivity.
  - rewrite silent_app, Ht, Hr. reflexivity.
  - destruct Hr as [t' [E S']]. exists (t ++ t')%list. split.
    + rewrite E. apply app_assoc.
    + rewrite silent_app, Ht, S'. reflexivity.
  - rewrite silent_app, Ht, Hr. reflexivity.
Qed.

Lemma last_and_then (r : run) (k : State -> run) :
  raise_is_last r -> (forall st, raise_is_last (k st)) ->
  raise_is_last (and_then r k).
Proof.
  intros Hr Hk. unfold and_then.
  destruct (out r) eqn:E; try exact Hr.
  apply last_after; [| apply Hk].
  unfold raise_is_last in Hr. now rewrite E in Hr.
Qed.

Lemma last_eval (e : expr) (st : State) (k : nat -> State -> run) :
  (forall n st', raise_is_last (k n st')) ->
  raise_is_last (exec_eval e st k).
Proof.
  intros Hk. unfold exec_eval.
  destruct (eval e st) as [[n st'] | x].
  - apply last_after; [reflexivity | apply Hk].
  - apply last_raised.
Qed.

Lemma last_block (exec1 : stmt -> State -> run) (l : list stmt) :
  Forall (fun s => forall st, raise_is_last (exec1 s st)) l ->
  forall st, raise_is_last (exec_block State Exn exec1 l st).
Proof.
  induction 1 as [| s l Hs _ IH]; intros st; simpl.
  - apply last_done.
  - apply last_and_then; [apply Hs | apply IH].
Qed.

Lemma last_rounds (body : State -> run) (n : nat) :
  (forall st, raise_is_last (body st)) ->
  forall st, raise_is_last (exec_rounds State Exn body n st).
Proof.
  intros Hb. induction n as [| n IH]; intros st; simpl.
  - apply last_done.
  - apply last_and_then; [apply Hb | apply IH].
Qed.

Lemma last_while (fuel : nat) (test : expr) (body : State -> run) :
  (forall st, raise_is_last (body st)) ->
  forall st, raise_is_last (exec_while fuel test body st).
Proof.
  intros Hb. induction fuel as [| k IH]; intros st; simpl.
  - reflexivity.
  - apply last_eval. intros [| n] st'.
    + apply last_done.
    + apply last_and_then; [apply Hb | apply IH].
Qed.

(** Statements of a block free of handlers, one by one. *)
Lemma free_Forall (p : stmt -> bool) (P : stmt -> Prop) (l : list stmt) :
  Forall (fun s => has_stmt p (children s) = false -> p s = false -> P s) l ->
  has_stmt p l = false -> Forall P l.
Proof.
  induction 1 as [| s l Hs _ IH]; intros F; constructor.
  - apply free_cons in F. destruct F as [F0 [F1 _]]. now apply Hs.
  - apply free_cons in F. apply IH, F.
Qed.

(** Without a handler, a raise ends the run of a statement. *)
Lemma exec_raise_is_last (fuel : nat) (s : stmt) :
  has_stmt is_try (children s) = false -> is_try s = false ->
  forall st, raise_is_last (exec fuel s st).
Proof.
  induction s as [s IH] using stmt_children_ind.
  intros Hc Hs st.
  assert (B : forall l, incl l (children s) -> has_stmt is_try l = false ->
              forall st', raise_is_last (run_block fuel l st')).
  { intros l Hl Fl. apply last_block.
    apply free_Forall with (p := is_try); [| exact Fl].
    apply Forall_forall. intros s' Hin. apply (proj1 (Forall_forall _ _) IH).
    apply Hl, Hin. }
  destruct s; simpl in *; try discriminate.
  - unfold exec_simple. destruct (run_simple _ st); [reflexivity | apply last_raised].
  - unfold exec_simple. destruct (run_simple _ st); [reflexivity | apply last_raised].
  - unfold exec_simple. destruct (run_simple _ st); [reflexivity | apply last_raised].
  - unfold exec_simple. destruct (run_simple _ st); [reflexivity | apply last_raised].
  - apply last_done.
  - apply last_and_then.
    + apply B; [apply incl_refl | exact Hc].
    + intros st'. apply last_done.
  - apply last_eval. intros _ st'. reflexivity.
  - apply last_eval. intros n st'. apply last_rounds. intros st''.
    apply B; [apply incl_refl | exact Hc].
  - apply last_while. intros st'.
    apply B; [apply incl_refl | exact Hc].
  - apply free_app in Hc. destruct Hc as [Hb Ho].
    apply last_eval. intros [| n] st'.
    + apply B; [apply incl_appr, incl_refl | exact Ho].
    + apply B; [apply incl_appl, incl_refl | exact Hb].
  - apply last_eval. intros [| n] st'; [apply last_raised | apply last_done].
  - apply last_raised.
  - unfold exec_simple. destruct (run_simple _ st); [reflexivity | apply last_raised].
Qed.

Lemma block_raise_is_last (fuel : nat) (l : list stmt) (st : State) :
  has_stmt is_try l = false -> raise_is_last (run_block fuel l st).
Proof.
  intros F. apply last_block.
  apply free_Forall with (p := is_try); [| exact F].
  apply Forall_forall. intros s _ Hc Hs. now apply exec_raise_is_last.
Qed.

(** When the raise is the last event, it is the outcome. *)
Lemma raise_is_outcome (r : run) (x : Exn) :
  raise_is_last r -> In (Raise x) (trace r) ->
  out r = Raised x /\ exists t, trace r = (t ++ [Raise x])%list /\ silent t = true.
Proof.
  unfold raise_is_last. intros H Hin.
  assert (Q : forall t, silent t = true -> ~ In (Raise x) t).
  { intros t St Hx. unfold silent in St.
    apply (proj1 (forallb_forall _ _) St) in Hx. discriminate. }
  destruct (out r) as [| | y |]; try (exfalso; now apply (Q _ H)).
  destruct H as [t [E St]]. rewrite E in Hin.
  apply in_app_or in Hin. destruct Hin as [Hin | [Hin | []]].
  - exfalso. now apply (Q _ St).
  - inversion Hin; subst. split; [reflexivity |]. now exists t.
Qed.

(** Without a [while] loop a run never gives up. *)
Lemma and_then_ends (r : run) (k : State -> run) :
  out r <> Diverged -> (forall st, out (k st) <> Diverged) ->
  out (and_then r k) <> Diverged.
Proof.
  intros Hr Hk. unfold and_then.
  destruct (out r) eqn:E; try (rewrite E; discriminate).
  - simpl. apply Hk.
  - congruence.
Qed.

Lemma eval_ends (e : expr) (st : State) (k : nat -> State -> run) :
  (forall n st', out (k n st') <> Diverged) ->
  out (exec_eval e st k) <> Diverged.
Proof.
  intros Hk. unfold exec_eval.
  destruct (eval e st) as [[n st'] | x]; simpl; [apply Hk | discriminate].
Qed.

Lemma block_ends (exec1 : stmt -> State -> run) (l : list stmt) :
  Forall (fun s => forall st, out (exec1 s st) <> Diverged) l ->
  forall st, out (exec_block State Exn exec1 l st) <> Diverged.
Proof.
  induction 1 as [| s l Hs _ IH]; intros st; simpl.
  - discriminate.
  - apply and_then_ends; [apply Hs | apply IH].
Qed.

Lemma rounds_end (body : State -> run) (n : nat) :
  (forall st, out (body st) <> Diverged) ->
  forall st, out (exec_rounds State Exn body n st) <> Diverged.
Proof.
  intros Hb. induction n as [| n IH]; intros st; simpl.
  - discriminate.
  - apply and_then_ends; [apply Hb | apply IH].
Qed.

Lemma exec_ends (fuel : nat) (s : stmt) :
  has_stmt is_while (children s) = false -> is_while s = false ->
  forall st, out (exec fuel s st) <> Diverged.
Proof.
  induction s as [s IH] using stmt_children_ind.
  intros Hc Hs st.
  assert (B : forall l, incl l (children s) -> has_stmt is_while l = false ->
              forall st', out (run_block fuel l st') <> Diverged).
  { intros l Hl Fl. apply block_ends.
    apply free_Forall with (p := is_while); [| exact Fl].
    apply Forall_forall. intros s' Hin. apply (proj1 (Forall_forall _ _) IH).
    apply Hl, Hin. }
  destruct s; simpl in *; try discriminate;
    try (unfold exec_simple; destruct (run_simple _ st); simpl; discriminate).
  - apply and_then_ends.
    + apply B; [apply incl_refl | exact Hc].
    + intros st'. discriminate.
  - apply eval_ends. intros _ st'. discriminate.
  - apply eval_ends. intros n st'. apply rounds_end. intros st''.
    apply B; [apply incl_refl | exact Hc].
  - apply free_app in Hc. destruct Hc as [Hb Ho].
    apply eval_ends. intros [| n] st'.
    + apply B; [apply incl_appr, incl_refl | exact Ho].
    + apply B; [apply incl_appl, incl_refl | exact Hb].
  - apply free_app in Hc. destruct Hc as [Hb Ho].
    pose proof (B body (incl_appl _ (incl_refl _)) Hb st) as Hd.
    change (out (exec_block State Exn (exec fuel) body st) <> Diverged) in Hd.
    destruct (out (exec_block State Exn (exec fuel) body st)) eqn:E.
    + rewrite E. discriminate.
    + rewrite E. discriminate.
    + simpl. apply B; [apply incl_appr, incl_refl | exact Ho].
    + congruence.
  - apply eval_ends. intros [| n] st'; discriminate.
Qed.

Lemma block_never_diverges (fuel : nat) (l : list stmt) (st : State) :
  has_stmt is_while l = false -> out (run_block fuel l st) <> Diverged.
Proof.
  intros F. apply block_ends.
  apply free_Forall with (p := is_while); [| exact F].
  apply Forall_forall. intros s _ Hc Hs. now apply exec_ends.
Qed.

End ExecutionFacts.

(** ** The Grover notebook: recorded optimum *)

Lemma objective_of_source (x0 x1 x2 : Z) :
  match minimized Grover_optimizer.cell_05 with
  | Some e => eval_arith (binary_env x0 x1 x2) e
  | None => None
  end = Some (objective x0 x1 x2).
Proof. reflexivity. Qed.

Lemma objective_minimum (b0 b1 b2 : bool) :
  (objective 1 0 1 <= objective (Z.b2z b0) (Z.b2z b1) (Z.b2z b2))%Z.
Proof. destruct b0, b1, b2; vm_compute; discriminate. Qed.

Lemma objective_minimum_unique (b0 b1 b2 : bool) :
  (objective (Z.b2z b0) (Z.b2z b1) (Z.b2z b2) =? objective 1 0 1)%Z
  = b0 && negb b1 && b2.
Proof. destruct b0, b1, b2; reflexivity. Qed.

(** C1.  In the Grover notebook the text recorded for
    [GroverOptimizer(6, num_iterations=10, sampler=Sampler()).solve(qp)]
    is the text recorded for
    [MinimumEigenOptimizer(NumPyMinimumEigensolver()).solve(qp)]: objective
    function value -6.0 at x0=1.0, x1=0.0, x2=1.0, status SUCCESS.  The
    objective the cell hands to [model.minimize] is [objective], -6 is its
    value at (1, 0, 1), and that is its least value over the eight binary
    points, reached nowhere else. *)
Theorem grover_recorded_is_exact_minimum :
  grover_recorded = exact_recorded
  /\ read_report grover_recorded
     = Some {| report_fval := -60 # 10;
               report_values := [("x0", 10 # 10); ("x1", 0 # 10);
                                 ("x2", 10 # 10)];
               report_status := "SUCCESS" |}
  /\ read_report exact_recorded = read_report grover_recorded
  /\ (forall x0 x1 x2,
        match minimized Grover_optimizer.cell_05 with
        | Some e => eval_arith (binary_env x0 x1 x2) e
        | None => None
        end = Some (objective x0 x1 x2))
  /\ -60 # 10 == inject_Z (objective 1 0 1)
  /\ (forall b0 b1 b2 : bool,
        (objective 1 0 1 <= objective (Z.b2z b0) (Z.b2z b1) (Z.b2z b2))%Z)
  /\ (forall b0 b1 b2 : bool,
        (objective (Z.b2z b0) (Z.b2z b1) (Z.b2z b2) =? objective 1 0 1)%Z
        = b0 && negb b1 && b2).
Proof.
  split; [reflexivity |].
  split; [vm_compute; reflexivity |].
  split; [reflexivity |].
  split; [exact objective_of_source |].
  split; [reflexivity |].
  split; [exact objective_minimum | exact objective_minimum_unique].
Qed.

(** ** The excited-states notebook: recorded energies *)

Lemma all_within_Forall2 (tol : Q) (l1 l2 : list Q) :
  List.length l1 = List.length l2 ->
  Excited.all_within tol l1 l2 = true ->
  Forall2 (fun a b => Qabs (a - b) <= tol) l1 l2.
Proof.
  revert l2. induction l1 as [| a l1 IH]; intros [| b l2] Hlen H;
    try discriminate; constructor.
  - simpl in H. apply andb_true_iff in H. destruct H as [H _].
    unfold Excited.within in H. now apply Qle_bool_iff.
  - simpl in H. apply andb_true_iff in H. destruct H as [_ H].
    apply IH; [now inversion Hlen | exact H].
Qed.

Lemma isclose_refl (b : Q) : Excited.isclose b b = true.
Proof.
  unfold Excited.isclose. apply Qle_bool_iff.
  setoid_replace (b - b) with 0 by ring.
  change (Qabs 0) with 0.
  apply Qle_trans with (0 + 0); [discriminate |].
  apply Qplus_le_compat; [discriminate |].
  apply Qmult_le_0_compat; [discriminate | apply Qabs_nonneg].
Qed.

(** [filter_criterion] lets through a state with two particles and no
    magnetization, and stops at the particle number when that is off. *)
Lemma filter_criterion_accepts :
  Excited.filter_criterion tt tt
    [("ParticleNumber", [2]); ("Magnetization", [0])] = inl true.
Proof.
  unfold Excited.filter_criterion, Excited.first_of.
  cbn [find fst snd String.eqb Ascii.eqb Bool.eqb].
  rewrite (isclose_refl 2).
  cbn [find fst snd String.eqb Ascii.eqb Bool.eqb].
  rewrite (isclose_refl 0). reflexivity.
Qed.

Lemma filter_criterion_short_circuits :
  Excited.filter_criterion tt tt [("ParticleNumber", [1])] = inl false
  /\ Excited.filter_criterion tt tt [("ParticleNumber", [2])]
     = inr Excited.KeyError.
Proof. split; reflexivity. Qed.

(** C9.  In the recorded outputs of the excited-states notebook the qEOM
    solver and the [NumPyEigensolver] with the custom [filter_criterion]
    both report three excited states, and state by state their total
    energies differ by at most 1e-4 Hartree.  Every state the filtered
    solver reports has recorded observables that [filter_criterion]
    accepts (two particles, magnetization zero). *)
Theorem qeom_agrees_with_filtered_numpy :
  option_map (@List.length Q) (total_excited_energies qeom_results)
  = Some 3%nat
  /\ option_map (@List.length Q) (total_excited_energies new_numpy_results)
     = Some 3%nat
  /\ Forall2 (fun a b => Qabs (a - b) <= 1 # 10000)
             (energies_of qeom_results) (energies_of new_numpy_results)
  /\ option_map (map (Excited.filter_criterion tt tt))
                (Excited.excited_observables new_numpy_results)
     = Some [inl true; inl true; inl true].
Proof.
  split; [vm_compute; reflexivity |].
  split; [vm_compute; reflexivity |].
  split.
  - apply all_within_Forall2; vm_compute; reflexivity.
  - vm_compute. reflexivity.
Qed.

(** ** The four notebooks and the libraries they call *)

(** C5.  The repository holds four notebooks, one per toy problem: the
    Grover optimizer (it alone calls [GroverOptimizer]), the portfolio
    optimization (it alone calls [PortfolioOptimization]), the excited
    states solvers (it alone calls [ExcitedStatesEigensolver] and [QEOM])
    and the tour of the quantum object class (it alone calls [Qobj]). *)
Theorem four_notebooks_four_problems :
  map title notebooks
  = [Some "# Grover Optimizer"; Some "# Portfolio Optimization";
     Some "# Excited states solvers"; Some "# The quantum object class"]
  /\ map (fun nb => calls_name "GroverOptimizer" (program nb)) notebooks
     = [true; false; false; false]
  /\ map (fun nb => calls_name "PortfolioOptimization" (program nb)) notebooks
     = [false; true; false; false]
  /\ map (fun nb => calls_name "ExcitedStatesEigensolver" (program nb)
                    && calls_name "QEOM" (program nb)) notebooks
     = [false; false; true; false]
  /\ map (fun nb => calls_name "Qobj" (program nb)) notebooks
     = [false; false; false; true].
Proof.
  split; [reflexivity |].
  repeat split; vm_compute; reflexivity.
Qed.

(** C6.  [GroverOptimizer] is called once, with one positional argument
    (the number of value qubits) and the keywords [num_iterations] and
    [sampler]; [PortfolioOptimization] is called once, with the keywords
    [expected_returns], [covariances], [risk_factor] and [budget]. *)
Theorem constructor_call_signatures :
  flat_map (fun nb => call_shapes "GroverOptimizer" (program nb)) notebooks
  = [(1%nat, ["num_iterations"; "sampler"])]
  /\ flat_map (fun nb => call_shapes "PortfolioOptimization" (program nb))
              notebooks
     = [(0%nat, ["expected_returns"; "covariances"; "risk_factor"; "budget"])]
  /\ definition_of "grover_optimizer" (program grover_optimizer)
     = Some (ECall (EName "GroverOptimizer") [EInt 6]
                   [("num_iterations", EInt 10);
                    ("sampler", ECall (EName "Sampler") [] [])])
  /\ definition_of "portfolio" (program portfolio_optimization)
     = Some (ECall (EName "PortfolioOptimization") []
                   [("expected_returns", EName "mu");
                    ("covariances", EName "sigma");
                    ("risk_factor", EName "q");
                    ("budget", EName "budget")]).
Proof.
  split; [vm_compute; reflexivity |].
  split; [vm_compute; reflexivity |].
  split; reflexivity.
Qed.



(** ** Shape of the cells *)

(** The cell that defines [print_result] is not one library call and one
    print, and it branches and loops. *)
Lemma print_result_cell_branches :
  In (source_of Portfolio_optimization.cell_08)
     (sources portfolio_optimization)
  /\ single_call_plus_print (source_of Portfolio_optimization.cell_08) = false
  /\ has_branching (source_of Portfolio_optimization.cell_08) = true
  /\ has_loop (source_of Portfolio_optimization.cell_08) = true.
Proof.
  split.
  - unfold sources, code_cells. simpl. tauto.
  - repeat split; vm_compute; reflexivity.
Qed.

(** C2, amended.  No code cell holds failure handling or retry (a
    handler, a [while] loop, an assertion, a [raise], an [if] statement),
    concurrency, or a class of the repository's own.  The cells are
    straight-line imports, assignments and calls; only cells 3 and 4 of
    the quantum-object notebook are one call inside one print.  Branching
    occurs only where the notebooks define their two functions: the
    conditional expression of [print_result] (portfolio cell 8, which also
    loops) and the [and] of [filter_criterion] (excited-states cell 12);
    portfolio cell 4 holds a list comprehension. *)
Theorem cells_are_straight_line_calls :
  Forall (fun nb =>
            cells_where has_recovery nb = []
            /\ cells_where uses_concurrency nb = []
            /\ cells_where (has_stmt is_classdef) nb = [])
         notebooks
  /\ map (cells_where single_call_plus_print) notebooks
     = [[]; []; []; [3; 4]]%nat
  /\ map (cells_where has_branching) notebooks = [[]; [8]; [12]; []]%nat
  /\ map (cells_where has_loop) notebooks = [[]; [4; 8]; []; []]%nat
  /\ map (cells_where (has_stmt is_functiondef)) notebooks
     = [[]; [8]; [12]; []]%nat.
Proof.
  split.
  - repeat constructor; vm_compute; reflexivity.
  - repeat split; vm_compute; reflexivity.
Qed.

(** The quantum-object notebook hands nothing to a solver. *)
Lemma quantum_object_notebook_has_no_solver :
  In quantum_object_class notebooks
  /\ solve_runs quantum_object_class = []
  /\ solves_and_prints quantum_object_class = false
  /\ existsb (String.eqb "solve") (applied_names (program quantum_object_class))
     = false.
Proof.
  split.
  - simpl. tauto.
  - repeat split; vm_compute; reflexivity.
Qed.

(** C3, amended.  The three Qiskit notebooks follow one pattern: a
    problem object goes to the [solve] method of a solver built by an
    imported constructor, and the result is printed by a later statement
    ([print], or [print_result] which prints).  The problem comes from a
    docplex [Model] in the Grover notebook, from [PortfolioOptimization]
    in the portfolio notebook and from [PySCFDriver] in the excited-states
    notebook.  The quantum-object notebook has no solver and no [solve]:
    four of its cells print a [Qobj], the others show the value of an
    expression.  Only the Grover notebook imports docplex. *)
Theorem qiskit_notebooks_solve_and_print :
  map solves_and_prints notebooks = [true; true; true; false]
  /\ map (fun nb => map (fun r => (run_solver r,
                                   provenance 5 (program nb) (run_problem r)))
                        (solve_runs nb)) notebooks
     = [[(Some "GroverOptimizer", ["from_docplex_mp"; "Model"]);
         (Some "MinimumEigenOptimizer", ["from_docplex_mp"; "Model"])];
        [(Some "MinimumEigenOptimizer",
          ["to_quadratic_program"; "PortfolioOptimization"]);
         (Some "MinimumEigenOptimizer",
          ["to_quadratic_program"; "PortfolioOptimization"]);
         (Some "MinimumEigenOptimizer",
          ["to_quadratic_program"; "PortfolioOptimization"])];
        [(Some "ExcitedStatesEigensolver", ["run"; "PySCFDriver"]);
         (Some "QEOM", ["run"; "PySCFDriver"]);
         (Some "ExcitedStatesEigensolver", ["run"; "PySCFDriver"])];
        []]
  /\ cells_where (calls_name "print") quantum_object_class
     = [3; 4; 5; 6]%nat
  /\ map (fun nb => mem "docplex"
                        (map package (imported_modules (program nb))))
         notebooks
     = [true; false; false; false].
Proof.
  repeat split; vm_compute; reflexivity.
Qed.

(** The cell [q ** 3] applies an operator: it neither constructs through
    a call nor reads a field. *)
Lemma power_cell_is_not_a_constructor_call :
  In (source_of Quantum_object_class.cell_22) (sources quantum_object_class)
  /\ source_of Quantum_object_class.cell_22
     = [SExpr (EBinOp (EName "q") Pow (EInt 3))]
  /\ merely_constructs_and_reads (source_of Quantum_object_class.cell_22)
     = false.
Proof.
  split.
  - unfold sources, code_cells. simpl. tauto.
  - split; reflexivity.
Qed.

(** C7, amended.  No code cell defines a class or asserts an invariant.
    The cells construct through library calls and read fields, and
    thirteen of them do more: each of these applies an arithmetic
    operator or defines a function ([print_result], [filter_criterion]);
    every other cell is made of imports, assignments, calls, attribute
    reads and literals only. *)
Theorem no_class_and_cells_beyond_constructor_calls :
  Forall (fun nb =>
            cells_where (has_stmt is_classdef) nb = []
            /\ cells_where (has_stmt is_assert) nb = []
            /\ forallb (fun c => merely_constructs_and_reads c
                                 || has_expr is_operator c
                                 || has_stmt is_functiondef c)
                       (sources nb) = true)
         notebooks
  /\ map (cells_where (fun c => negb (merely_constructs_and_reads c)))
         notebooks
     = [[5]; [4; 6; 8]; [8; 12]; [9; 13; 20; 21; 22; 23; 34]]%nat
  /\ map (cells_where (has_stmt is_functiondef)) notebooks
     = [[]; [8]; [12]; []]%nat.
Proof.
  split.
  - repeat constructor; vm_compute; reflexivity.
  - split; vm_compute; reflexivity.
Qed.

(** ** Failures of library calls *)

Lemma notebooks_have_no_recovery :
  forallb (fun nb =>
             forallb (fun c =>
                        negb (has_recovery c)
                        && forallb (fun b => negb (has_stmt is_try b)
                                             && negb (has_stmt is_while b))
                                   (blocks c))
                     (sources nb))
          notebooks = true.
Proof. vm_compute. reflexivity. Qed.

(** C4.  No code cell of any notebook holds recovery, retry or validation
    logic: no handler, no [while] loop, no assertion, no [raise], no [if]
    statement.  So, whatever the libraries do, in a run of a cell (or of
    the body of a function a cell defines) an exception raised by a
    library step is the last thing that happens and is the outcome of the
    run; and the run always ends. *)
Theorem failures_propagate_unhandled
    (State Exn : Type)
    (run_simple : stmt -> State -> State + Exn)
    (eval : expr -> State -> (nat * State) + Exn)
    (bind : expr -> State -> State)
    (define : stmt -> State -> State)
    (exn_of : expr -> State -> Exn)
    (assertion_error : Exn)
    (fuel : nat) (st : State)
    (nb : notebook) (c b : list stmt) :
  In nb notebooks -> In c (sources nb) -> In b (blocks c) ->
  has_recovery c = false
  /\ let r := run_block State Exn run_simple eval bind define exn_of
                        assertion_error fuel b st in
     raise_is_last r
     /\ out r <> Diverged
     /\ forall x, In (Raise x) (trace r) ->
                  out r = Raised x
                  /\ exists t, trace r = (t ++ [Raise x])%list
                               /\ silent t = true.
Proof.
  intros Hnb Hc Hb.
  pose proof notebooks_have_no_recovery as H.
  apply (proj1 (forallb_forall _ _) H) in Hnb.
  apply (proj1 (forallb_forall _ _) Hnb) in Hc.
  apply andb_true_iff in Hc. destruct Hc as [Hrec Hblocks].
  apply (proj1 (forallb_forall _ _) Hblocks) in Hb.
  apply andb_true_iff in Hb. destruct Hb as [Htry Hwhile].
  apply negb_true_iff in Hrec, Htry, Hwhile.
  split; [exact Hrec |].
  cbv zeta.
  assert (L : raise_is_last
                (run_block State Exn run_simple eval bind define exn_of
                           assertion_error fuel b st))
    by (apply block_raise_is_last; exact Htry).
  split; [exact L |].
  split; [apply block_never_diverges; exact Hwhile |].
  intros x Hx. now apply raise_is_outcome.
Qed.

(** The Grover cell that solves, under a library whose [solve] fails:
    the [solve] raises and the [print] after it never runs. *)
Lemma failures_propagate_in_grover_cell :
  In grover_optimizer notebooks
  /\ In (source_of Grover_optimizer.cell_07) (sources grover_optimizer)
  /\ In (source_of Grover_optimizer.cell_07)
        (blocks (source_of Grover_optimizer.cell_07))
  /\ trace (run_solve_fails (source_of Grover_optimizer.cell_07))
     = [Step; Raise "QiskitOptimizationError"]
  /\ has_recovery (source_of Grover_optimizer.cell_07) = false
  /\ raise_is_last (run_solve_fails (source_of Grover_optimizer.cell_07))
  /\ out (run_solve_fails (source_of Grover_optimizer.cell_07)) <> Diverged
  /\ forall x,
       In (Raise x)
          (trace (run_solve_fails (source_of Grover_optimizer.cell_07))) ->
       out (run_solve_fails (source_of Grover_optimizer.cell_07)) = Raised x
       /\ exists t,
            trace (run_solve_fails (source_of Grover_optimizer.cell_07))
            = (t ++ [Raise x])%list
            /\ silent t = true.
Proof.
  assert (H1 : In grover_optimizer notebooks) by (simpl; tauto).
  assert (H2 : In (source_of Grover_optimizer.cell_07)
                  (sources grover_optimizer))
    by (unfold sources, code_cells; simpl; tauto).
  assert (H3 : In (source_of Grover_optimizer.cell_07)
                  (blocks (source_of Grover_optimizer.cell_07)))
    by (left; reflexivity).
  split; [exact H1 |].
  split; [exact H2 |].
  split; [exact H3 |].
  split; [reflexivity |].
  exact (failures_propagate_unhandled nat string solve_fails
           (fun _ n => inl (1%nat, n)) (fun _ n => n) (fun _ n => n)
           (fun _ _ => "Exception") "AssertionError" 0 0%nat
           grover_optimizer (source_of Grover_optimizer.cell_07)
           (source_of Grover_optimizer.cell_07) H1 H2 H3).
Defined.

(** With a handler the same failure is swallowed: the raise is followed
    by further steps and the block ends normally. *)
Lemma handler_swallows_failure :
  let r := run_solve_fails
             [STry (source_of Grover_optimizer.cell_07)
                   [SExpr (ECall (EName "print") [EStr "failed"] [])]] in
  out r = Normal
  /\ trace r = [Step; Raise "QiskitOptimizationError"; Step].
Proof. split; reflexivity. Qed.

(** ** [print_result]: order and contents of the table *)

Lemma insert_desc_perm (a : string * Q) (l : list (string * Q)) :
  Permutation (Portfolio.insert_desc a l) (a :: l).
Proof.
  induction l as [| b l IH]; simpl.
  - apply Permutation_refl.
  - destruct (Qle_bool (snd b) (snd a)).
    + apply Permutation_refl.
    + apply perm_trans with (b :: a :: l).
      * apply perm_skip, IH.
      * apply perm_swap.
Qed.

Lemma sorted_reverse_perm (l : list (string * Q)) :
  Permutation (Portfolio.sorted_reverse l) l.
Proof.
  induction l as [| a l IH]; simpl.
  - apply perm_nil.
  - apply perm_trans with (a :: Portfolio.sorted_reverse l).
    + apply insert_desc_perm.
    + apply perm_skip, IH.
Qed.

Lemma insert_desc_sorted (a : string * Q) (l : list (string * Q)) :
  StronglySorted Portfolio.by_value_desc l ->
  StronglySorted Portfolio.by_value_desc (Portfolio.insert_desc a l).
Proof.
  induction 1 as [| b l Hs IH Hb]; simpl.
  - constructor; constructor.
  - destruct (Qle_bool (snd b) (snd a)) eqn:E.
    + apply Qle_bool_iff in E.
      constructor; [constructor; assumption |].
      constructor; [exact E |].
      apply Forall_impl with (P := Portfolio.by_value_desc b); [| exact Hb].
      intros c Hc. unfold Portfolio.by_value_desc in *.
      apply Qle_trans with (snd b); assumption.
    + constructor; [exact IH |].
      apply Permutation_Forall with (a :: l).
      * apply Permutation_sym, insert_desc_perm.
      * constructor; [| exact Hb].
        unfold Portfolio.by_value_desc.
        destruct (Qlt_le_dec (snd a) (snd b)) as [Hlt | Hle].
        -- apply Qlt_le_weak, Hlt.
        -- apply Qle_bool_iff in Hle. congruence.
Qed.

Lemma sorted_reverse_sorted (l : list (string * Q)) :
  StronglySorted Portfolio.by_value_desc (Portfolio.sorted_reverse l).
Proof.
  induction l as [| a l IH]; simpl.
  - constructor.
  - apply insert_desc_sorted, IH.
Qed.

(** The sort is stable: items of one probability keep their order. *)
Lemma insert_desc_stable (q : Q) (a : string * Q) (l : list (string * Q)) :
  filter (fun b => Qeq_bool (snd b) q) (Portfolio.insert_desc a l)
  = filter (fun b => Qeq_bool (snd b) q) (a :: l).
Proof.
  induction l as [| b l IH]; [reflexivity |].
  simpl Portfolio.insert_desc.
  destruct (Qle_bool (snd b) (snd a)) eqn:E; [reflexivity |].
  change (filter (fun b0 => Qeq_bool (snd b0) q) (b :: Portfolio.insert_desc a l))
    with (if Qeq_bool (snd b) q
          then b :: filter (fun b0 => Qeq_bool (snd b0) q) (Portfolio.insert_desc a l)
          else filter (fun b0 => Qeq_bool (snd b0) q) (Portfolio.insert_desc a l)).
  rewrite IH. simpl.
  destruct (Qeq_bool (snd a) q) eqn:Ea; destruct (Qeq_bool (snd b) q) eqn:Eb;
    try reflexivity.
  exfalso.
  apply Qeq_bool_iff in Ea, Eb.
  assert (Hle : snd b <= snd a) by (rewrite Ea, Eb; apply Qle_refl).
  apply Qle_bool_iff in Hle. congruence.
Qed.

Lemma sorted_reverse_stable (q : Q) (l : list (string * Q)) :
  filter (fun b => Qeq_bool (snd b) q) (Portfolio.sorted_reverse l)
  = filter (fun b => Qeq_bool (snd b) q) l.
Proof.
  induction l as [| a l IH]; [reflexivity |].
  simpl Portfolio.sorted_reverse. rewrite insert_desc_stable.
  simpl. rewrite IH. reflexivity.
Qed.

Lemma StronglySorted_firstn {A : Type} (R : A -> A -> Prop) (n : nat)
    (l : list A) :
  StronglySorted R l -> StronglySorted R (firstn n l).
Proof.
  revert n. induction l as [| a l IH]; intros n Hs.
  - rewrite firstn_nil. constructor.
  - destruct n as [| n]; [constructor |].
    inversion Hs as [| ? ? Hs' Ha]; subst. simpl. constructor.
    + apply IH, Hs'.
    + apply Forall_forall. intros c Hc.
      apply (proj1 (Forall_forall _ _) Ha).
      rewrite <- (firstn_skipn n l). apply in_or_app. left. exact Hc.
Qed.

(** Rows printed for sorted items are sorted. *)
Lemma rows_sorted_from_items (evaluate : list Z -> option Q)
    (rows : list (list Z * Q * Q)) (items : list (string * Q)) :
  Forall2 (Portfolio.row_for evaluate) rows items ->
  StronglySorted Portfolio.by_value_desc items ->
  StronglySorted Portfolio.row_desc rows.
Proof.
  induction 1 as [| r it rows items Hr Hrest IH]; intros Hs.
  - constructor.
  - inversion Hs as [| ? ? Hs' Ha]; subst. constructor; [apply IH, Hs' |].
    clear IH Hs Hs'. destruct Hr as [_ [_ Hv]].
    induction Hrest as [| r' it' rows items Hr' _ IH']; constructor.
    + inversion Ha; subst. destruct Hr' as [_ [_ Hv']].
      unfold Portfolio.row_desc, Portfolio.by_value_desc in *.
      rewrite Hv, Hv'. assumption.
    + apply IH'. now inversion Ha.
Qed.

Lemma those_app {A : Type} (l1 l2 : list (option A)) :
  those (l1 ++ l2)
  = match those l1, those l2 with
    | Some a, Some b => Some (a ++ b)%list
    | _, _ => None
    end.
Proof.
  induction l1 as [| [a |] l1 IH]; simpl.
  - destruct (those l2); reflexivity.
  - rewrite IH. destruct (those l1), (those l2); reflexivity.
  - reflexivity.
Qed.

Lemma those_map_Some {A B : Type} (f : A -> option B) (l : list A)
    (l' : list B) :
  those (map f l) = Some l' -> Forall2 (fun a b => f a = Some b) l l'.
Proof.
  revert l'. induction l as [| a l IH]; simpl; intros l' H.
  - inversion H. constructor.
  - destruct (f a) as [b |] eqn:E; [| discriminate].
    destruct (those (map f l)) as [bs |]; [| discriminate].
    inversion H; subst. constructor; [exact E | apply IH; reflexivity].
Qed.

(** [int] goes through on every character exactly when the key is made
    of digits, and then the selection is the digits read backwards. *)
Lemma selection_of_digits (k : string) :
  Portfolio.selection_of k
  = if all_digits k then Some (rev (digits_in k)) else None.
Proof.
  unfold Portfolio.selection_of, all_digits.
  induction k as [| c k IH]; [reflexivity |].
  simpl. rewrite map_app, those_app, IH. simpl.
  unfold is_digit. destruct (digit_of c) as [d |]; simpl.
  - destruct (forallb _ (Portfolio.chars k)); reflexivity.
  - destruct (forallb _ (Portfolio.chars k)); reflexivity.
Qed.

Lemma get_chars (k : string) (i : nat) :
  String.get i k = nth_error (Portfolio.chars k) i.
Proof.
  revert i. induction k as [| c k IH]; intros [| i]; simpl; auto.
Qed.

Lemma length_chars (k : string) :
  List.length (Portfolio.chars k) = String.length k.
Proof. induction k as [| c k IH]; simpl; [reflexivity | now f_equal]. Qed.

Lemma Forall2_nth_error_some {A B : Type} (R : A -> B -> Prop)
    (l : list A) (l' : list B) (i : nat) (a : A) :
  Forall2 R l l' -> nth_error l i = Some a ->
  exists b, nth_error l' i = Some b /\ R a b.
Proof.
  intros H. revert i. induction H as [| x y l l' Hxy _ IH]; intros [| i] E;
    simpl in *; try discriminate.
  - inversion E; subst. now exists y.
  - now apply IH.
Qed.

(** What [selection_of] returns is the key read from its end. *)
Lemma selection_of_reads_backwards (k : string) (sel : list Z) :
  Portfolio.selection_of k = Some sel -> Portfolio.reads_backwards k sel.
Proof.
  intros H. unfold Portfolio.selection_of in H.
  apply those_map_Some in H.
  assert (Hlen : List.length sel = String.length k).
  { rewrite <- (Forall2_length H), length_rev. apply length_chars. }
  split; [exact Hlen |].
  intros i Hi.
  pose proof (nth_error_rev i (Portfolio.chars k)) as Hrev.
  rewrite length_chars in Hrev.
  pose proof Hi as Hb. apply Nat.ltb_lt in Hb. rewrite Hb in Hrev.
  destruct (nth_error (rev (Portfolio.chars k)) i) as [c |] eqn:E.
  - destruct (Forall2_nth_error_some _ _ _ _ _ H E) as [d [Hd Hc]].
    exists c, d. rewrite get_chars, <- Hrev. auto.
  - exfalso. apply nth_error_None in E.
    rewrite length_rev, length_chars in E. lia.
Qed.

Lemma row_for_row_of_entry (evaluate : list Z -> option Q)
    (r : list Z * Q * Q) (item : string * Q) :
  Portfolio.row_for evaluate r item -> Portfolio.row_of_entry evaluate r item.
Proof.
  intros [Hs [He Hv]]. split; [| split; assumption].
  apply selection_of_reads_backwards, Hs.
Qed.

(** The loop prints one row per item, in order, up to the first item
    whose key [int] rejects or whose selection [evaluate] rejects. *)
Lemma print_rows_prefix (evaluate : list Z -> option Q)
    (items : list (string * Q)) :
  exists n,
    Forall2 (Portfolio.row_for evaluate)
            (Portfolio.rows_of (fst (Portfolio.print_rows evaluate items)))
            (firstn n items)
    /\ match snd (Portfolio.print_rows evaluate items) with
       | Portfolio.Finished => n = List.length items
       | Portfolio.ValueError =>
           exists it, nth_error items n = Some it
                      /\ Portfolio.selection_of (fst it) = None
       | Portfolio.EvaluateRaised =>
           exists it sel, nth_error items n = Some it
                          /\ Portfolio.selection_of (fst it) = Some sel
                          /\ evaluate sel = None
       end.
Proof.
  induction items as [| [k v] items IH].
  - exists 0%nat. split; [constructor | reflexivity].
  - simpl. destruct (Portfolio.selection_of k) as [sel |] eqn:E.
    + destruct (evaluate sel) as [value |] eqn:Ev.
      * destruct IH as [n [Hrows Hst]]. exists (S n). simpl. split.
        -- constructor; [| exact Hrows].
           unfold Portfolio.row_for. simpl. auto.
        -- destruct (snd (Portfolio.print_rows evaluate items));
             [now f_equal | exact Hst | exact Hst].
      * exists 0%nat. simpl. split; [constructor |].
        exists (k, v), sel. auto.
    + exists 0%nat. simpl. split; [constructor |].
      exists (k, v). split; [reflexivity | exact E].
Qed.

(** C10.  Whatever result [print_result] is given (its keys strings of
    ASCII characters, as bitstrings are), the items it loops over are the
    probabilities sorted in non-increasing order, a rearrangement of the
    dictionary's items, so the rows of the table come out in
    non-increasing order of probability.  Each row belongs to one item,
    in order: its selection is the key read from the end (entry [i] is
    the digit of the character [i] places before the last), its value is
    the objective evaluated at that selection, its probability the
    item's.  The table stops early only at an item whose key has a
    character that is not a digit ([int] raises) or whose reversed key
    the objective rejects ([evaluate] raises).  The three tables recorded
    in the notebook are in non-increasing order. *)
Theorem print_result_rows_sorted_and_reversed
    (evaluate : list Z -> option Q) (r : Portfolio.result) :
  Forall (fun kv => Portfolio.ascii_key (fst kv) = true)
         (Portfolio.probabilities_of
            (Portfolio.min_eigen_solver_result_eigenstate r)) ->
  let probabilities :=
    Portfolio.probabilities_of
      (Portfolio.min_eigen_solver_result_eigenstate r) in
  let items := Portfolio.sorted_reverse probabilities in
  let printed := Portfolio.print_result evaluate r in
  Permutation items probabilities
  /\ StronglySorted Portfolio.by_value_desc items
  /\ StronglySorted Portfolio.row_desc (Portfolio.rows_of (fst printed))
  /\ (exists n,
        Forall2 (Portfolio.row_of_entry evaluate)
                (Portfolio.rows_of (fst printed)) (firstn n items)
        /\ match snd printed with
           | Portfolio.Finished => n = List.length items
           | Portfolio.ValueError =>
               exists it, nth_error items n = Some it
                          /\ all_digits (fst it) = false
           | Portfolio.EvaluateRaised =>
               exists it sel, nth_error items n = Some it
                              /\ Portfolio.reads_backwards (fst it) sel
                              /\ evaluate sel = None
           end)
  /\ Forall (fun c => option_map nonincreasing (recorded_probabilities c)
                      = Some true) recorded_tables.
Proof.
  intros _ probabilities items printed.
  pose proof (print_rows_prefix evaluate items) as [n [Hrows Hst]].
  assert (Hsorted : StronglySorted Portfolio.by_value_desc items)
    by apply sorted_reverse_sorted.
  split; [apply sorted_reverse_perm |].
  split; [exact Hsorted |].
  split.
  - apply rows_sorted_from_items with (evaluate := evaluate)
                                      (items := firstn n items).
    + exact Hrows.
    + apply StronglySorted_firstn, Hsorted.
  - split.
    + exists n. split.
      * apply Forall2_impl with (2 := Hrows).
        apply row_for_row_of_entry.
      * change (snd printed)
          with (snd (Portfolio.print_rows evaluate items)).
        destruct (snd (Portfolio.print_rows evaluate items)).
        -- exact Hst.
        -- destruct Hst as [it [Hn Hs]]. exists it. split; [exact Hn |].
           rewrite selection_of_digits in Hs.
           destruct (all_digits (fst it)); [discriminate | reflexivity].
        -- destruct Hst as [it [sel [Hn [Hs He]]]]. exists it, sel.
           split; [exact Hn |]. split; [| exact He].
           apply selection_of_reads_backwards, Hs.
    + repeat constructor; vm_compute; reflexivity.
Qed.

(** A table of two assets with one key too short: two rows, key ["10"]
    printed as [0 1], then [evaluate] raises at the key ["1"]. *)
Lemma print_result_rows_example :
  let r := {| Portfolio.x := [0; 1]; Portfolio.fval := 1;
              Portfolio.min_eigen_solver_result_eigenstate :=
                Portfolio.QuasiDistribution
                  [("01", 1 # 4); ("10", 1 # 2); ("1", 1 # 8)] |} in
  let probabilities :=
    Portfolio.probabilities_of
      (Portfolio.min_eigen_solver_result_eigenstate r) in
  let items := Portfolio.sorted_reverse probabilities in
  let printed := Portfolio.print_result count_of_two r in
  Forall (fun kv => Portfolio.ascii_key (fst kv) = true) probabilities
  /\ Portfolio.rows_of (fst printed)
     = [([0; 1]%Z, 1, 1 # 2); ([1; 0]%Z, 1, 1 # 4)]
  /\ snd printed = Portfolio.EvaluateRaised
  /\ Permutation items probabilities
  /\ StronglySorted Portfolio.by_value_desc items
  /\ StronglySorted Portfolio.row_desc (Portfolio.rows_of (fst printed))
  /\ (exists n,
        Forall2 (Portfolio.row_of_entry count_of_two)
                (Portfolio.rows_of (fst printed)) (firstn n items)
        /\ match snd printed with
           | Portfolio.Finished => n = List.length items
           | Portfolio.ValueError =>
               exists it, nth_error items n = Some it
                          /\ all_digits (fst it) = false
           | Portfolio.EvaluateRaised =>
               exists it sel, nth_error items n = Some it
                              /\ Portfolio.reads_backwards (fst it) sel
                              /\ count_of_two sel = None
           end)
  /\ Forall (fun c => option_map nonincreasing (recorded_probabilities c)
                      = Some true) recorded_tables.
Proof.
  intros r probabilities items printed.
  assert (H : Forall (fun kv => Portfolio.ascii_key (fst kv) = true)
                     probabilities)
    by (repeat constructor).
  split; [exact H |].
  split; [reflexivity |].
  split; [reflexivity |].
  exact (print_result_rows_sorted_and_reversed count_of_two r H).
Defined.

(** * Further properties *)

(** ** Keys [int] accepts *)

Lemma print_rows_accepted (evaluate : list Z -> option Q)
    (items : list (string * Q)) :
  Forall (accepted evaluate) items ->
  Forall2 (Portfolio.row_for evaluate)
          (Portfolio.rows_of (fst (Portfolio.print_rows evaluate items)))
          items
  /\ snd (Portfolio.print_rows evaluate items) = Portfolio.Finished.
Proof.
  induction 1 as [| [k v] items [Hk He] _ [IH1 IH2]];
    [split; [constructor | reflexivity] |].
  simpl in Hk, He. simpl.
  pose proof (selection_of_digits k) as Hs. rewrite Hk in Hs. rewrite Hs.
  destruct (evaluate (rev (digits_in k))) as [value |] eqn:Ev;
    [| contradiction].
  simpl. split; [| exact IH2].
  constructor; [| exact IH1].
  unfold Portfolio.row_for. simpl. auto.
Qed.

Lemma print_rows_finished (evaluate : list Z -> option Q)
    (items : list (string * Q)) :
  snd (Portfolio.print_rows evaluate items) = Portfolio.Finished ->
  Forall (accepted evaluate) items.
Proof.
  induction items as [| [k v] items IH]; [constructor |].
  simpl. rewrite selection_of_digits.
  destruct (all_digits k) eqn:E; simpl; [| discriminate].
  destruct (evaluate (rev (digits_in k))) as [value |] eqn:Ev;
    [| discriminate].
  simpl. intros H. constructor; [| apply IH, H].
  split; simpl; [exact E | rewrite Ev; discriminate].
Qed.

(** X1.  For keys of ASCII characters, [print_result] runs to the end
    exactly when, for every entry of the probabilities, the key is made
    of decimal digits and the objective accepts the key read backwards.
    Otherwise it stops inside the loop: [int] raises [ValueError] at a
    character that is no digit, [objective.evaluate] raises at a
    selection it cannot take. *)
Theorem print_result_finishes_iff_accepted
    (evaluate : list Z -> option Q) (r : Portfolio.result) :
  Forall (fun kv => Portfolio.ascii_key (fst kv) = true)
         (Portfolio.probabilities_of
            (Portfolio.min_eigen_solver_result_eigenstate r)) ->
  (snd (Portfolio.print_result evaluate r) = Portfolio.Finished
   <-> Forall (accepted evaluate)
              (Portfolio.probabilities_of
                 (Portfolio.min_eigen_solver_result_eigenstate r))).
Proof.
  intros _. unfold Portfolio.print_result. simpl. split.
  - intros H. apply print_rows_finished in H.
    apply Permutation_Forall with (2 := H). apply sorted_reverse_perm.
  - intros H. apply print_rows_accepted.
    apply Permutation_Forall with (2 := H).
    apply Permutation_sym, sorted_reverse_perm.
Qed.

(** The key ["110"] is made of digits, but an objective of two assets
    rejects a selection of three: the call does not finish. *)
Lemma print_result_finishes_example :
  let r := {| Portfolio.x := [0; 1]; Portfolio.fval := 1;
              Portfolio.min_eigen_solver_result_eigenstate :=
                Portfolio.QuasiDistribution [("110", 1)] |} in
  Forall (fun kv => Portfolio.ascii_key (fst kv) = true)
         (Portfolio.probabilities_of
            (Portfolio.min_eigen_solver_result_eigenstate r))
  /\ Portfolio.print_result count_of_two r
     = ([Portfolio.Optimal [0; 1] 1;
         Portfolio.Text
           "\n----------------- Full result ---------------------";
         Portfolio.Text "selection\tvalue\t\tprobability";
         Portfolio.Text
           "---------------------------------------------------"],
        Portfolio.EvaluateRaised)
  /\ (snd (Portfolio.print_result count_of_two r) = Portfolio.Finished
      <-> Forall (accepted count_of_two)
                 (Portfolio.probabilities_of
                    (Portfolio.min_eigen_solver_result_eigenstate r))).
Proof.
  intros r.
  assert (H : Forall (fun kv => Portfolio.ascii_key (fst kv) = true)
                     (Portfolio.probabilities_of
                        (Portfolio.min_eigen_solver_result_eigenstate r)))
    by (repeat constructor).
  split; [exact H |].
  split; [reflexivity |].
  exact (print_result_finishes_iff_accepted count_of_two r H).
Defined.

Lemma Forall2_same_probabilities (evaluate : list Z -> option Q)
    (rows : list (list Z * Q * Q)) (items : list (string * Q)) :
  Forall2 (Portfolio.row_for evaluate) rows items ->
  map snd rows = map snd items.
Proof.
  induction 1 as [| r it rows items [_ [_ Hv]] _ IH]; [reflexivity |].
  simpl. now rewrite Hv, IH.
Qed.

(** The rows of a [QuasiDistribution] whose entries are all accepted. *)
Lemma quasi_rows_accepted (evaluate : list Z -> option Q) (x : list Q)
    (fval : Q) (bp : list (string * Q)) :
  Forall (accepted evaluate) bp ->
  Forall2 (Portfolio.row_for evaluate)
          (Portfolio.rows_of
             (fst (Portfolio.print_result evaluate
                     {| Portfolio.x := x; Portfolio.fval := fval;
                        Portfolio.min_eigen_solver_result_eigenstate :=
                          Portfolio.QuasiDistribution bp |})))
          (Portfolio.sorted_reverse bp).
Proof.
  intros H. unfold Portfolio.print_result. simpl.
  apply print_rows_accepted.
  apply Permutation_Forall with (2 := H).
  apply Permutation_sym, sorted_reverse_perm.
Qed.

(** X2.  For a [QuasiDistribution], when every key is made of digits and
    the objective accepts every key read backwards, the table has one row
    per entry of [binary_probabilities()]: the rows are the sorted
    entries, each as (key read backwards, objective there, probability),
    and their probabilities are a rearrangement of the dictionary's
    values. *)
Theorem print_result_prints_every_entry
    (evaluate : list Z -> option Q) (x : list Q) (fval : Q)
    (bp : list (string * Q)) :
  Forall (accepted evaluate) bp ->
  let rows :=
    Portfolio.rows_of
      (fst (Portfolio.print_result evaluate
              {| Portfolio.x := x; Portfolio.fval := fval;
                 Portfolio.min_eigen_solver_result_eigenstate :=
                   Portfolio.QuasiDistribution bp |})) in
  Forall2 (Portfolio.row_of_entry evaluate) rows
          (Portfolio.sorted_reverse bp)
  /\ List.length rows = List.length bp
  /\ Permutation (map snd rows) (map snd bp).
Proof.
  intros H rows.
  pose proof (quasi_rows_accepted evaluate x fval bp H) as Hrows.
  fold rows in Hrows. split; [| split].
  - apply Forall2_impl with (2 := Hrows). apply row_for_row_of_entry.
  - rewrite (Forall2_length Hrows).
    apply Permutation_length, sorted_reverse_perm.
  - rewrite (Forall2_same_probabilities _ _ _ Hrows).
    apply Permutation_map, sorted_reverse_perm.
Qed.

Lemma print_result_prints_every_entry_example :
  let bp := [("01", 1 # 4); ("10", 1 # 2); ("11", 1 # 4)] in
  let rows :=
    Portfolio.rows_of
      (fst (Portfolio.print_result count_of_two
              {| Portfolio.x := [0; 1]; Portfolio.fval := 1;
                 Portfolio.min_eigen_solver_result_eigenstate :=
                   Portfolio.QuasiDistribution bp |})) in
  Forall (accepted count_of_two) bp
  /\ rows = [([0; 1]%Z, 1, 1 # 2); ([1; 0]%Z, 1, 1 # 4);
             ([1; 1]%Z, 2, 1 # 4)]
  /\ Forall2 (Portfolio.row_of_entry count_of_two) rows
             (Portfolio.sorted_reverse bp)
  /\ List.length rows = List.length bp
  /\ Permutation (map snd rows) (map snd bp).
Proof.
  intros bp rows.
  assert (H : Forall (accepted count_of_two) bp)
    by (repeat constructor; discriminate).
  split; [exact H |].
  split; [reflexivity |].
  exact (print_result_prints_every_entry count_of_two [0; 1] 1 bp H).
Defined.

(** ** Order of the table *)

Lemma Forall2_filter {A B : Type} (R : A -> B -> Prop) (p : A -> bool)
    (q : B -> bool) (l : list A) (l' : list B) :
  (forall a b, R a b -> p a = q b) ->
  Forall2 R l l' -> Forall2 R (filter p l) (filter q l').
Proof.
  intros Hpq. induction 1 as [| a b l l' Hab _ IH]; [constructor |].
  simpl. rewrite (Hpq a b Hab).
  destruct (q b); [constructor; assumption | exact IH].
Qed.

(** X3.  Ties keep the order of the dictionary ([sorted] is stable, with
    [reverse=True] too): for a [QuasiDistribution] whose entries are all
    accepted, the rows of probability [q] are the rows of the entries of
    probability [q], in the order [binary_probabilities()] holds them. *)
Theorem print_result_ties_keep_dictionary_order
    (evaluate : list Z -> option Q) (x : list Q) (fval : Q)
    (bp : list (string * Q)) (q : Q) :
  Forall (accepted evaluate) bp ->
  Forall2 (Portfolio.row_of_entry evaluate)
          (filter (fun row => Qeq_bool (snd row) q)
                  (Portfolio.rows_of
                     (fst (Portfolio.print_result evaluate
                             {| Portfolio.x := x; Portfolio.fval := fval;
                                Portfolio.min_eigen_solver_result_eigenstate :=
                                  Portfolio.QuasiDistribution bp |}))))
          (filter (fun kv => Qeq_bool (snd kv) q) bp).
Proof.
  intros H.
  pose proof (quasi_rows_accepted evaluate x fval bp H) as Hrows.
  rewrite <- (sorted_reverse_stable q bp).
  apply Forall2_filter.
  - intros row it [_ [_ Hv]]. now rewrite Hv.
  - apply Forall2_impl with (2 := Hrows). apply row_for_row_of_entry.
Qed.

Lemma print_result_ties_example :
  let bp := [("11", 1 # 4); ("10", 1 # 2); ("01", 1 # 4)] in
  let rows :=
    Portfolio.rows_of
      (fst (Portfolio.print_result count_of_two
              {| Portfolio.x := [0; 1]; Portfolio.fval := 1;
                 Portfolio.min_eigen_solver_result_eigenstate :=
                   Portfolio.QuasiDistribution bp |})) in
  Forall (accepted count_of_two) bp
  /\ map (fun row => fst (fst row)) rows = [[0; 1]; [1; 1]; [1; 0]]%Z
  /\ Forall2 (Portfolio.row_of_entry count_of_two)
             (filter (fun row => Qeq_bool (snd row) (1 # 4)) rows)
             (filter (fun kv => Qeq_bool (snd kv) (1 # 4)) bp).
Proof.
  intros bp rows.
  assert (H : Forall (accepted count_of_two) bp)
    by (repeat constructor; discriminate).
  split; [exact H |].
  split; [reflexivity |].
  exact (print_result_ties_keep_dictionary_order count_of_two [0; 1] 1 bp
           (1 # 4) H).
Defined.

Lemma sorted_head_dominates (a : string * Q) (l : list (string * Q)) :
  StronglySorted Portfolio.by_value_desc (a :: l) ->
  Forall (fun kv => snd kv <= snd a) (a :: l).
Proof.
  intros H. inversion H as [| ? ? _ Ha]; subst.
  constructor; [apply Qle_refl | exact Ha].
Qed.

(** X4.  The first row of the table, when there is one, carries the
    largest probability of the dictionary. *)
Theorem print_result_first_row_is_most_probable
    (evaluate : list Z -> option Q) (r : Portfolio.result) :
  match Portfolio.rows_of (fst (Portfolio.print_result evaluate r)) with
  | [] => True
  | row :: _ =>
      Forall (fun kv => snd kv <= snd row)
             (Portfolio.probabilities_of
                (Portfolio.min_eigen_solver_result_eigenstate r))
  end.
Proof.
  set (probs := Portfolio.probabilities_of
                  (Portfolio.min_eigen_solver_result_eigenstate r)).
  pose proof (print_rows_prefix evaluate (Portfolio.sorted_reverse probs))
    as [n [Hrows _]].
  change (Portfolio.rows_of (fst (Portfolio.print_result evaluate r)))
    with (Portfolio.rows_of
            (fst (Portfolio.print_rows evaluate
                    (Portfolio.sorted_reverse probs)))).
  destruct (Portfolio.rows_of _) as [| row rows]; [exact I |].
  pose proof (sorted_reverse_sorted probs) as Hs.
  pose proof (sorted_reverse_perm probs) as Hp.
  destruct (Portfolio.sorted_reverse probs) as [| it items].
  - rewrite firstn_nil in Hrows. inversion Hrows.
  - destruct n as [| n]; [inversion Hrows |].
    simpl in Hrows. inversion Hrows as [| ? ? ? ? Hr _]; subst.
    destruct Hr as [_ [_ Hv]].
    apply Permutation_Forall with (1 := Hp).
    apply Forall_impl with (2 := sorted_head_dominates it items Hs).
    intros kv Hkv. rewrite Hv. exact Hkv.
Qed.

Lemma abs2_nonneg (v : Q * Q) : 0 <= Portfolio.abs2 v.
Proof.
  destruct v as [[a b] [c d]]. unfold Portfolio.abs2, Qle, Qplus, Qmult.
  simpl. nia.
Qed.

(** X5.  For an eigenstate read through [to_dict()], every probability
    the table shows is a squared modulus, so none is negative. *)
Theorem state_rows_are_nonnegative
    (evaluate : list Z -> option Q) (x : list Q) (fval : Q)
    (to_dict : list (string * (Q * Q))) :
  Forall (fun row => 0 <= snd row)
         (Portfolio.rows_of
            (fst (Portfolio.print_result evaluate
                    {| Portfolio.x := x; Portfolio.fval := fval;
                       Portfolio.min_eigen_solver_result_eigenstate :=
                         Portfolio.StateFn to_dict |}))).
Proof.
  set (probs := map (fun kv => (fst kv, Portfolio.abs2 (snd kv))) to_dict).
  change (Portfolio.rows_of _)
    with (Portfolio.rows_of
            (fst (Portfolio.print_rows evaluate
                    (Portfolio.sorted_reverse probs)))).
  pose proof (print_rows_prefix evaluate (Portfolio.sorted_reverse probs))
    as [n [Hrows _]].
  assert (Hitems : Forall (fun kv : string * Q => 0 <= snd kv)
                          (firstn n (Portfolio.sorted_reverse probs))).
  { apply Forall_forall. intros kv Hin.
    assert (Hin' : In kv probs).
    { apply Permutation_in with (1 := sorted_reverse_perm probs).
      rewrite <- (firstn_skipn n (Portfolio.sorted_reverse probs)).
      apply in_or_app. left. exact Hin. }
    unfold probs in Hin'. apply in_map_iff in Hin'.
    destruct Hin' as [kv' [E _]]. subst kv. simpl. apply abs2_nonneg. }
  revert Hitems.
  induction Hrows as [| row it rows items Hr _ IH]; intros Hitems;
    constructor.
  - destruct Hr as [_ [_ Hv]]. rewrite Hv.
    now inversion Hitems.
  - apply IH. now inversion Hitems.
Qed.

(** ** Bit order of a selection *)

(** X6.  A selection has one entry per character of the key, and entry
    [i] is the digit of the character [i] places from the end: the last
    character of the bitstring is the first asset. *)
Theorem selection_reads_key_from_the_end
    (k : string) (sel : list Z) (i : nat) :
  Portfolio.selection_of k = Some sel ->
  (i < String.length k)%nat ->
  List.length sel = String.length k
  /\ nth_error sel i
     = match String.get (String.length k - S i) k with
       | Some c => digit_of c
       | None => None
       end.
Proof.
  intros H Hi. unfold Portfolio.selection_of in H.
  apply those_map_Some in H.
  assert (Hlen : List.length sel = String.length k).
  { rewrite <- (Forall2_length H), length_rev. apply length_chars. }
  split; [exact Hlen |].
  rewrite get_chars.
  pose proof (nth_error_rev i (Portfolio.chars k)) as Hrev.
  rewrite length_chars in Hrev.
  apply Nat.ltb_lt in Hi. rewrite Hi in Hrev.
  destruct (nth_error (rev (Portfolio.chars k)) i) as [c |] eqn:E.
  - rewrite <- Hrev.
    destruct (Forall2_nth_error_some _ _ _ _ _ H E) as [d [Hd Hc]].
    rewrite Hd, Hc. reflexivity.
  - exfalso. apply nth_error_None in E.
    rewrite length_rev, length_chars in E.
    apply Nat.ltb_lt in Hi. lia.
Qed.

Lemma selection_reads_key_example :
  Portfolio.selection_of "0110" = Some [0; 1; 1; 0]%Z
  /\ Portfolio.selection_of "001" = Some [1; 0; 0]%Z
  /\ (0 < String.length "001")%nat
  /\ List.length [1; 0; 0]%Z = String.length "001"
  /\ nth_error [1; 0; 0]%Z 0
     = match String.get (String.length "001" - 1) "001" with
       | Some c => digit_of c
       | None => None
       end.
Proof.
  split; [reflexivity |].
  split; [reflexivity |].
  split; [simpl; lia |].
  exact (selection_reads_key_from_the_end "001" [1; 0; 0]%Z 0
           eq_refl (Nat.lt_0_succ 2)).
Defined.

(** ** Sorting what is sorted *)

Lemma sorted_reverse_fixes_sorted (l : list (string * Q)) :
  StronglySorted Portfolio.by_value_desc l -> Portfolio.sorted_reverse l = l.
Proof.
  induction 1 as [| a l Hs IH Ha]; [reflexivity |].
  simpl. rewrite IH.
  destruct l as [| b l]; [reflexivity |].
  simpl. inversion Ha as [| ? ? Hb _]; subst.
  unfold Portfolio.by_value_desc in Hb.
  apply Qle_bool_iff in Hb. rewrite Hb. reflexivity.
Qed.

(** X7.  A [QuasiDistribution] whose [binary_probabilities()] are already
    in non-increasing order of value, all entries accepted, is printed in
    its own order: the sort changes nothing and the rows are the rows of
    the entries one by one. *)
Theorem print_result_keeps_descending_dictionary
    (evaluate : list Z -> option Q) (x : list Q) (fval : Q)
    (bp : list (string * Q)) :
  StronglySorted Portfolio.by_value_desc bp ->
  Forall (accepted evaluate) bp ->
  Forall2 (Portfolio.row_of_entry evaluate)
          (Portfolio.rows_of
             (fst (Portfolio.print_result evaluate
                     {| Portfolio.x := x; Portfolio.fval := fval;
                        Portfolio.min_eigen_solver_result_eigenstate :=
                          Portfolio.QuasiDistribution bp |})))
          bp.
Proof.
  intros Hs Hd.
  pose proof (quasi_rows_accepted evaluate x fval bp Hd) as Hrows.
  rewrite (sorted_reverse_fixes_sorted _ Hs) in Hrows.
  apply Forall2_impl with (2 := Hrows). apply row_for_row_of_entry.
Qed.

Lemma print_result_keeps_descending_example :
  let bp := [("01", 1 # 2); ("10", 1 # 4); ("11", 1 # 4)] in
  let rows :=
    Portfolio.rows_of
      (fst (Portfolio.print_result count_of_two
              {| Portfolio.x := [1; 0]; Portfolio.fval := 1;
                 Portfolio.min_eigen_solver_result_eigenstate :=
                   Portfolio.QuasiDistribution bp |})) in
  StronglySorted Portfolio.by_value_desc bp
  /\ Forall (accepted count_of_two) bp
  /\ map (fun row => fst (fst row)) rows = [[1; 0]; [0; 1]; [1; 1]]%Z
  /\ Forall2 (Portfolio.row_of_entry count_of_two) rows bp.
Proof.
  intros bp rows.
  assert (Hs : StronglySorted Portfolio.by_value_desc bp).
  { repeat constructor; unfold Portfolio.by_value_desc, Qle; simpl; lia. }
  assert (Hd : Forall (accepted count_of_two) bp)
    by (repeat constructor; discriminate).
  split; [exact Hs |].
  split; [exact Hd |].
  split; [reflexivity |].
  exact (print_result_keeps_descending_dictionary count_of_two [1; 0] 1 bp
           Hs Hd).
Defined.

(** ** The window of [filter_criterion] *)

Lemma isclose_two (n : Q) :
  Excited.isclose n 2 = true <-> Qabs (n - 2) <= 2001 # 100000000.
Proof.
  unfold Excited.isclose. rewrite Qle_bool_iff.
  assert (E : Excited.atol + Excited.rtol * Qabs 2 == 2001 # 100000000)
    by reflexivity.
  rewrite E. reflexivity.
Qed.

Lemma isclose_zero (m : Q) :
  Excited.isclose m 0 = true <-> Qabs m <= 1 # 100000000.
Proof.
  unfold Excited.isclose. rewrite Qle_bool_iff.
  assert (E : Excited.atol + Excited.rtol * Qabs 0 == 1 # 100000000)
    by reflexivity.
  assert (E' : m - 0 == m) by ring.
  rewrite E, E'. reflexivity.
Qed.

(** X8.  [filter_criterion] keeps a state whenever both observables are
    there, the particle number lies within 2e-5 of 2 and the
    magnetization within 1e-8 of 0; and it keeps a state only if both are
    there, the particle number lies within 2.0011e-5 of 2 and the
    magnetization within 1.0001e-8 of 0.  Between the two bounds lies the
    threshold of [numpy.isclose], which the doubles it computes with
    place a little above 2.001e-5 and 1e-8. *)
Theorem filter_criterion_window
    (E V : Type) (eigenstate : E) (eigenvalue : V)
    (aux_values : list (string * list Q)) :
  (Excited.filter_criterion eigenstate eigenvalue aux_values = inl true ->
   exists n m,
     Excited.first_of aux_values "ParticleNumber" = inl n
     /\ Excited.first_of aux_values "Magnetization" = inl m
     /\ Qabs (n - 2) <= 20011 # 1000000000
     /\ Qabs m <= 10001 # 1000000000000)
  /\ (forall n m,
        Excited.first_of aux_values "ParticleNumber" = inl n ->
        Excited.first_of aux_values "Magnetization" = inl m ->
        Qabs (n - 2) <= 2 # 100000 ->
        Qabs m <= 1 # 100000000 ->
        Excited.filter_criterion eigenstate eigenvalue aux_values
        = inl true).
Proof.
  unfold Excited.filter_criterion. split.
  - destruct (Excited.first_of aux_values "ParticleNumber") as [n | e];
      [| discriminate].
    destruct (Excited.isclose n 2) eqn:Hn; [| discriminate].
    destruct (Excited.first_of aux_values "Magnetization") as [m | e];
      [| discriminate].
    intros H. exists n, m.
    split; [reflexivity |]. split; [reflexivity |]. split.
    + apply isclose_two in Hn.
      apply Qle_trans with (1 := Hn). discriminate.
    + assert (Hm : Excited.isclose m 0 = true) by congruence.
      apply isclose_zero in Hm.
      apply Qle_trans with (1 := Hm). discriminate.
  - intros n m Hn Hm Cn Cm. rewrite Hn.
    assert (Cn' : Excited.isclose n 2 = true).
    { apply isclose_two. apply Qle_trans with (1 := Cn). discriminate. }
    rewrite Cn', Hm.
    apply isclose_zero in Cm. rewrite Cm. reflexivity.
Qed.

(** X9.  When the particle number is off, the answer is [False] and the
    magnetization is never looked up: no [KeyError] even when the
    observables hold no magnetization. *)
Theorem filter_criterion_skips_magnetization
    (E V : Type) (eigenstate : E) (eigenvalue : V)
    (aux_values : list (string * list Q)) (n : Q) :
  Excited.first_of aux_values "ParticleNumber" = inl n ->
  2001 # 100000000 < Qabs (n - 2) ->
  Excited.filter_criterion eigenstate eigenvalue aux_values = inl false.
Proof.
  intros Hn Hfar. unfold Excited.filter_criterion. rewrite Hn.
  destruct (Excited.isclose n 2) eqn:C; [| reflexivity].
  apply isclose_two in C. exfalso.
  apply (Qlt_not_le _ _ Hfar), C.
Qed.

Lemma filter_criterion_skips_magnetization_example :
  Excited.first_of [("ParticleNumber", [1])] "ParticleNumber" = inl 1
  /\ 2001 # 100000000 < Qabs (1 - 2)
  /\ Excited.first_of [("ParticleNumber", [1])] "Magnetization"
     = inr Excited.KeyError
  /\ Excited.filter_criterion tt tt [("ParticleNumber", [1])] = inl false.
Proof.
  split; [reflexivity |].
  split; [reflexivity |].
  split; [reflexivity |].
  exact (filter_criterion_skips_magnetization unit unit tt tt
           [("ParticleNumber", [1])] 1 eq_refl eq_refl).
Defined.

(** ** More of the recorded outputs *)

(** X10.  In each of the three recorded printouts of the excited-states
    notebook, every total energy, ground state and excited states alike,
    is the electronic energy plus the nuclear repulsion energy, to the
    last printed digit. *)
Theorem recorded_energies_add_up :
  Forall energies_add_up [numpy_results; qeom_results; new_numpy_results].
Proof.
  repeat apply Forall_cons; try apply Forall_nil.
  - vm_compute. split; [discriminate | repeat constructor].
  - vm_compute. split; [discriminate | repeat constructor].
  - vm_compute. split; [discriminate | repeat constructor].
Qed.

(** X11.  The solver with the default filter reports the singlets only:
    its excited-state energies are those the solver with
    [filter_criterion] reports for the states recorded with spin zero, and
    the state it leaves out is the one recorded with spin one. *)
Theorem default_filter_reports_the_singlets :
  excited_spins new_numpy_results = Some [1000 # 1000; 0 # 1000; 0 # 1000]
  /\ energies_of numpy_results = singlet_energies new_numpy_results
  /\ List.length (energies_of new_numpy_results)
     = S (List.length (energies_of numpy_results)).
Proof.
  split; [vm_compute; reflexivity |].
  split; vm_compute; reflexivity.
Qed.

(** X12.  The three solvers of the portfolio notebook record the same
    optimum, selection [1 0 0 1] of value -0.0149.  It picks
    [budget = num_assets // 2 = 2] assets, it is a row of each table, and
    no row of a table that picks two assets has a smaller value; the
    tables of [SamplingVQE] and [QAOA] do hold a row of smaller value, one
    that picks three assets. *)
Theorem recorded_optimum_is_best_within_budget :
  definition_of "num_assets" (program portfolio_optimization)
  = Some (EInt num_assets)
  /\ definition_of "budget" (program portfolio_optimization)
     = Some (EBinOp (EName "num_assets") FloorDiv (EInt 2))
  /\ map (fun c => read_optimum (printed_text c)) recorded_tables
     = [Some ([1; 0; 0; 1]%Z, -149 # 10000);
        Some ([1; 0; 0; 1]%Z, -149 # 10000);
        Some ([1; 0; 0; 1]%Z, -149 # 10000)]
  /\ map best_within_budget recorded_tables = [true; true; true]
  /\ map undercut_outside_budget recorded_tables = [false; true; true].
Proof.
  split; [reflexivity |].
  split; [reflexivity |].
  split; [vm_compute; reflexivity |].
  split; vm_compute; reflexivity.
Qed.

(** ** Names and tickers *)

(** X13.  Run top to bottom, the three Qiskit notebooks never read a
    name that no earlier statement bound (function bodies checked where
    the function is defined).  In the quantum-object notebook the names
    left unbound are the eight that [from qutip import *] has to bring
    in. *)
Theorem names_are_bound_before_use :
  map unbound_names notebooks
  = [[]; []; [];
     ["Qobj"; "coherent"; "sigmaz"; "jmat"; "destroy"; "sigmax";
      "coherent_dm"; "basis"]]
  /\ map (fun nb => mem "*" (imported_names (program nb))) notebooks
     = [false; false; false; true].
Proof. split; vm_compute; reflexivity. Qed.

Lemma NoDup_map_injective {A B : Type} (f : A -> B) (l : list A) :
  (forall a b, f a = f b -> a = b) -> NoDup l -> NoDup (map f l).
Proof.
  intros Hinj. induction 1 as [| a l Ha _ IH]; simpl; constructor.
  - intros Hin. apply in_map_iff in Hin. destruct Hin as [b [E Hb]].
    apply Hinj in E. subst b. contradiction.
  - exact IH.
Qed.

Lemma str_of_nat_injective (i j : nat) :
  str_of_nat i = str_of_nat j -> i = j.
Proof.
  unfold str_of_nat. intros H.
  apply DecimalNat.Unsigned.to_uint_inj.
  pose proof (DecimalString.NilEmpty.usu (Nat.to_uint i)) as Hi.
  pose proof (DecimalString.NilEmpty.usu (Nat.to_uint j)) as Hj.
  rewrite H in Hi. rewrite Hi in Hj. now inversion Hj.
Qed.

(** X14.  The comprehension that names the assets gives [num_assets]
    tickers, the one at position [i] is ["TICKER"] followed by [i] in
    decimal, and no two tickers are the same. *)
Theorem stocks_are_distinct_tickers (n : nat) :
  List.length (stocks n) = n
  /\ NoDup (stocks n)
  /\ forall i, nth_error (stocks n) i
               = if (i <? n)%nat then Some ("TICKER" ++ str_of_nat i)
                 else None.
Proof.
  unfold stocks. split; [now rewrite length_map, length_seq |]. split.
  - apply NoDup_map_injective; [| apply seq_NoDup].
    intros a b H. inversion H. now apply str_of_nat_injective.
  - intros i. destruct (Nat.ltb_spec i n) as [Hlt | Hge].
    + rewrite nth_error_map, nth_error_seq.
      apply Nat.ltb_lt in Hlt. rewrite Hlt. reflexivity.
    + apply nth_error_None. now rewrite length_map, length_seq.
Qed.

(** ** The objective as printed *)

(** X16.  The objective [qp.prettyprint()] printed after
    [from_docplex_mp] is the one the cell wrote: read as a polynomial,
    the printed line has the value of [objective] at every integer point.
    On binary points that value lies between -6 and 2. *)
Theorem printed_objective_is_objective :
  (forall x0 x1 x2 : Z,
     eval_printed (binary_env x0 x1 x2) printed_objective
     = Some (objective x0 x1 x2))
  /\ forall b0 b1 b2 : bool,
       (-6 <= objective (Z.b2z b0) (Z.b2z b1) (Z.b2z b2) <= 2)%Z.
Proof.
  split.
  - intros x0 x1 x2.
    cbv -[Z.mul Z.add Z.sub Z.opp]. unfold objective. f_equal. ring.
  - intros b0 b1 b2. destruct b0, b1, b2; vm_compute; split; discriminate.
Qed.


(** ** What is set and never used *)

(** X17.  Every variable a cell assigns is read somewhere in its
    notebook, but one: [penalty], which the portfolio notebook sets to
    [num_assets] and hands to nothing.  Of the names imports bind, two
    are never read: [plt] in the quantum-object notebook, and [qiskit],
    bound by [import qiskit.tools.jupyter] in the last cell of each
    Qiskit notebook, an import made for the magics the same cell runs
    next. *)
Theorem only_penalty_is_never_read :
  map (fun nb => never_read (program nb)) notebooks
  = [[]; ["penalty"]; []; []]
  /\ definition_of "penalty" (program portfolio_optimization)
     = Some (EName "num_assets")
  /\ map (fun nb => unused_imports (program nb)) notebooks
     = [["qiskit"]; ["qiskit"]; ["qiskit"]; ["plt"]]
  /\ map (cells_where imports_for_magics) notebooks
     = [[11]; [15]; [13]; []]%nat.
Proof.
  split; [vm_compute; reflexivity |].
  split; [reflexivity |].
  split; vm_compute; reflexivity.
Qed.
